(** * Phrase Filter content script: a shallow embedding and its properties

    The development follows [extension/content.js], the content script of the
    Phrase Filter browser extension.  The repository holds three revisions of
    that script:

    - the current one (second document of [src/extension/content.js]): selectors
      are hard-coded per registrable domain, the title attribute is preferred
      over the rendered text, excluded cards get an overlay, bid buttons are
      annotated with their true total.  It is embedded in [Module Content];
    - two earlier ones (first document of [src/extension/content.js] and the
      script kept in [src/unnamed/part_000]): the title is the rendered text of
      the card's [h4], excluded cards are hidden with [display: none], and the
      item selector lookup falls back to [DEFAULT_ITEM_SELECTOR].  The functions
      that differ are embedded in [Module Legacy].

    Part I holds the definitions, Part II the theorems. *)

From Stdlib Require Import Ascii NArith ZArith DecimalString Floats.
From stdpp Require Import base strings gmap list.

(** Decimal literals such as 1.175 stand for the nearest binary64 value. *)
Set Warnings "-inexact-float".

(* ===================================================================== *)
(** * Part I.  The embedding                                              *)
(* ===================================================================== *)

(** ** JavaScript strings

    A string is the sequence of its code units.  The model keeps the code
    units of the Latin-1 range (one [ascii] each), which covers every literal
    of the script; [trim] and [toLowerCase] follow ECMAScript on that range. *)
Module JsString.

(** [ToBoolean] on a string: only the empty string is falsy. *)
Definition truthy (s : string) : bool :=
  match s with
  | EmptyString => false
  | String _ _ => true
  end.

(** [a || b] where each of [a] and [b] is a string or [null]/[undefined]
    ([None]). *)
Definition or_opt (a b : option string) : option string :=
  match a with
  | Some s => if truthy s then a else b
  | None => b
  end.

(** [a || b] where [b] is a string. *)
Definition or_else (a : option string) (b : string) : string :=
  match a with
  | Some s => if truthy s then s else b
  | None => b
  end.

(** WhiteSpace and LineTerminator code points below U+0100:
    TAB, LF, VT, FF, CR, SP and NBSP. *)
Definition isWhiteSpace (c : ascii) : bool :=
  match c with
  | "009" | "010" | "011" | "012" | "013" | " " | "160" => true
  | _ => false
  end%char.

Fixpoint trimStart (s : string) : string :=
  match s with
  | EmptyString => EmptyString
  | String c s' => if isWhiteSpace c then trimStart s' else s
  end.

Fixpoint trimEnd (s : string) : string :=
  match s with
  | EmptyString => EmptyString
  | String c s' =>
      match trimEnd s' with
      | EmptyString => if isWhiteSpace c then EmptyString else String c EmptyString
      | t => String c t
      end
  end.

(** [String.prototype.trim]. *)
Definition trim (s : string) : string := trimEnd (trimStart s).

(** Lower-case mapping of one Latin-1 code unit: A-Z, and U+00C0..U+00DE
    except the multiplication sign U+00D7. *)
Definition toLowerCaseChar (c : ascii) : ascii :=
  let n := N_of_ascii c in
  if ((65 <=? n) && (n <=? 90) ||
      (192 <=? n) && (n <=? 222) && negb (n =? 215))%N
  then ascii_of_N (n + 32)
  else c.

(** [String.prototype.toLowerCase]. *)
Fixpoint toLowerCase (s : string) : string :=
  match s with
  | EmptyString => EmptyString
  | String c s' => String (toLowerCaseChar c) (toLowerCase s')
  end.

(** [h.startsWith(p)]. *)
Fixpoint startsWith (h p : string) {struct p} : bool :=
  match p, h with
  | EmptyString, _ => true
  | String _ _, EmptyString => false
  | String a p', String b h' => Ascii.eqb a b && startsWith h' p'
  end.

(** [h.includes(p)]: [p] occurs at some position of [h]. *)
Fixpoint includes (h p : string) : bool :=
  startsWith h p ||
  match h with
  | EmptyString => false
  | String _ h' => includes h' p
  end.

(** [h.endsWith(p)]: some suffix of [h] is [p]. *)
Fixpoint endsWith (h p : string) : bool :=
  String.eqb h p ||
  match h with
  | EmptyString => false
  | String _ h' => endsWith h' p
  end.

(** [p] occurs in [h]; [p] ends [h]. *)
Definition Substring (p h : string) : Prop :=
  exists pre post, h = pre +:+ p +:+ post.

Definition Suffix (p h : string) : Prop :=
  exists pre, h = pre +:+ p.

(** The double-quote character, for literals that contain it. *)
Definition dquote : string := String "034"%char EmptyString.

End JsString.

(** ** The DOM as the script sees it *)
Module Dom.

Inductive node (E : Type) : Type :=
  | TextNode (data : string)
  | ElementNode (e : E).
Arguments TextNode {E} data.
Arguments ElementNode {E} e.

(** An element: its tag, its attributes, the [display] property of its
    inline style ([el.style.display], [""] when unset) and its children. *)
#[warnings="-register-all"]
Inductive Element : Type :=
  mkElement { tagName : string;
              attributes : gmap string string;
              styleDisplay : string;
              childNodes : list (node Element) }.

Abbreviation Node := (node Element).

(** [el.textContent]: the text of all descendants, in document order. *)
Fixpoint textContent (e : Element) : string :=
  (fix concat (ns : list Node) : string :=
     match ns with
     | [] => ""
     | TextNode d :: rest => d +:+ concat rest
     | ElementNode e' :: rest => textContent e' +:+ concat rest
     end) (childNodes e).

(** [el.getAttribute(name)]: [None] is [null]. *)
Definition getAttribute (el : Element) (name : string) : option string :=
  attributes el !! name.

Definition hasAttribute (el : Element) (name : string) : bool :=
  bool_decide (is_Some (attributes el !! name)).

Definition setAttribute (el : Element) (name value : string) : Element :=
  {| tagName := tagName el;
     attributes := <[name := value]> (attributes el);
     styleDisplay := styleDisplay el;
     childNodes := childNodes el |}.

Definition removeAttribute (el : Element) (name : string) : Element :=
  {| tagName := tagName el;
     attributes := delete name (attributes el);
     styleDisplay := styleDisplay el;
     childNodes := childNodes el |}.

(** What the browser writes into the [style] attribute when a script
    assigns the [display] property of an element's inline style: the
    serialization of the inline style, a function of the attribute as it was
    ([None] when the element had none) and of the assigned value. *)
Class CssomEnv : Type :=
  mkCssomEnv { serializeInlineStyle : option string -> string -> string }.

(** [el.style.display = v]: the property is set and the [style] attribute
    is rewritten to the serialization of the inline style. *)
Definition setStyleDisplay {cssom : CssomEnv} (el : Element) (v : string) : Element :=
  {| tagName := tagName el;
     attributes :=
       <["style" := serializeInlineStyle (attributes el !! "style") v]> (attributes el);
     styleDisplay := v;
     childNodes := childNodes el |}.

(** [el.textContent = v]: the children are replaced by one text node
    (by none when [v] is empty). *)
Definition setTextContent (el : Element) (v : string) : Element :=
  {| tagName := tagName el;
     attributes := attributes el;
     styleDisplay := styleDisplay el;
     childNodes := if JsString.truthy v then [TextNode v] else [] |}.

(** A place in a tree: the child indices from the root.  The node lists the
    browser returns hold element identities; in the model an element of a
    tree is identified by its place. *)
Abbreviation Path := (list nat).

Fixpoint lookupPath (root : Element) (p : Path) : option Element :=
  match p with
  | [] => Some root
  | i :: p' =>
      match childNodes root !! i with
      | Some (ElementNode c) => lookupPath c p'
      | _ => None
      end
  end.

(** In-place mutation of the element at a place.  A place that no longer
    leads to an element (its subtree was replaced) leaves the tree as it is:
    the script then mutates a detached element. *)
Fixpoint updatePath (f : Element -> Element) (p : Path) (root : Element) : Element :=
  match p with
  | [] => f root
  | i :: p' =>
      match childNodes root !! i with
      | Some (ElementNode c) =>
          {| tagName := tagName root;
             attributes := attributes root;
             styleDisplay := styleDisplay root;
             childNodes := <[i := ElementNode (updatePath f p' c)]> (childNodes root) |}
      | _ => root
      end
  end.

(** [for (const el of els) f(el)] over a static list of places. *)
Definition forEachPath (f : Element -> Element) (ps : list Path) (root : Element)
  : Element :=
  fold_left (fun r p => updatePath f p r) ps root.

Definition appendChild (parent child : Element) : Element :=
  {| tagName := tagName parent;
     attributes := attributes parent;
     styleDisplay := styleDisplay parent;
     childNodes := childNodes parent ++ [ElementNode child] |}.

(** Whether [document.getElementById(id)] finds an element under [root]. *)
Fixpoint hasElementById (id : string) (root : Element) : bool :=
  bool_decide (attributes root !! "id" = Some id) ||
  (fix any (ns : list Node) : bool :=
     match ns with
     | [] => false
     | TextNode _ :: rest => any rest
     | ElementNode c :: rest => hasElementById id c || any rest
     end) (childNodes root).

(** [document.head]: the first [head] child of the document element. *)
Fixpoint headIndex_from (ns : list Node) (i : nat) : option nat :=
  match ns with
  | [] => None
  | ElementNode c :: rest =>
      if String.eqb (tagName c) "head" then Some i else headIndex_from rest (S i)
  | TextNode _ :: rest => headIndex_from rest (S i)
  end.

Definition headIndex (root : Element) : option nat :=
  headIndex_from (childNodes root) 0.

(** One record of a mutation batch. *)
Record MutationRecord : Type :=
  mkMutationRecord { mutationType : string;
                     addedNodes : list Node;
                     removedNodes : list Node;
                     attributeName : option string }.

(** What the script takes from the browser: the selector engine and the
    number built-ins.  [querySelector el sel] is [el.querySelector(sel)];
    [querySelectorAll root sel] lists, in document order, the places of the
    elements [document.querySelectorAll(sel)] returns for the document
    rooted at [root]. *)
Class HostEnv : Type :=
  mkHostEnv { querySelector : Element -> string -> option Element;
              querySelectorAll : Element -> string -> list Path;
              parseFloat : string -> float;
              toFixed : float -> nat -> string }.

End Dom.

(** ** The current content script *)
Module Content.
Import JsString Dom.

Definition STORAGE_KEY : string := "phraseFilterRulesByHost".

Definition HIGHLIGHT_ATTR : string := "data-phrasefilter-highlight".
Definition HIDDEN_ATTR : string := "data-phrasefilter-hidden".

(** The tables are object literals; [Object.entries] lists their string keys
    in insertion order, so each is kept as an association list. *)
Definition ITEM_SELECTOR_BY_DOMAIN : list (string * string) :=
  [ ("bidfta.com",
     "div[role=" +:+ dquote +:+ "button" +:+ dquote +:+ "][aria-label=" +:+
     dquote +:+ "Click to navigate to item details" +:+ dquote +:+ "]");
    ("govdeals.com", "div.card.card-search") ].

Definition TITLE_SELECTOR_BY_DOMAIN : list (string * string) :=
  [ ("bidfta.com", "h4");
    ("govdeals.com", ".card-title a") ].

(** [SiteRules]: each phrase list is an array of strings, or missing
    ([None]: the property is [undefined] or [null]). *)
Record SiteRules : Type :=
  mkSiteRules { includePhrases : option (list string);
                excludePhrases : option (list string) }.

Definition defaultSiteRules : SiteRules :=
  {| includePhrases := Some []; excludePhrases := Some [] |}.

Definition hostMatchesDomain (host domain : string) : bool :=
  if negb (truthy host) || negb (truthy domain) then false
  else String.eqb host domain || endsWith host ("." +:+ domain).

(** The loop of [getItemSelectorForHost] over the entries: [continue] on a
    domain that does not match; on the first that does, [return] its trimmed
    selector when non-blank, else [break].  After the loop the function ends
    without a [return]: the result is [undefined], here [None]. *)
Fixpoint getItemSelectorForHost_loop
    (entries : list (string * string)) (host : string) : option string :=
  match entries with
  | [] => None
  | (domain, selector) :: rest =>
      if negb (hostMatchesDomain host domain)
      then getItemSelectorForHost_loop rest host
      else
        let trimmed := trim (or_else (Some selector) "") in
        if truthy trimmed then Some trimmed else None
  end.

Definition getItemSelectorForHost (host : string) : option string :=
  getItemSelectorForHost_loop ITEM_SELECTOR_BY_DOMAIN host.

Fixpoint getTitleSelectorForHost_loop
    (entries : list (string * string)) (host : string) : string :=
  match entries with
  | [] => ""
  | (domain, selector) :: rest =>
      if negb (hostMatchesDomain host domain)
      then getTitleSelectorForHost_loop rest host
      else trim (or_else (Some selector) "")
  end.

Definition getTitleSelectorForHost (host : string) : string :=
  getTitleSelectorForHost_loop TITLE_SELECTOR_BY_DOMAIN host.

(** [(s || "").toString().trim().toLowerCase()] on a string. *)
Definition normalizeText (s : string) : string :=
  toLowerCase (trim (or_else (Some s) "")).

(** [Array.isArray(arr) ? arr : []], then [map] and [filter(Boolean)]. *)
Definition normalizePhrases (arr : option (list string)) : list string :=
  let list := match arr with Some l => l | None => [] end in
  List.filter truthy (List.map normalizeText list).

(** [phrasesLower] is an array, hence truthy: of the second guard only the
    length test remains. *)
Definition hasAnyPhrase (haystackLower : string) (phrasesLower : list string) : bool :=
  if negb (truthy haystackLower) then false
  else if Nat.eqb (length phrasesLower) 0 then false
  else existsb (fun p => truthy p && includes haystackLower p) phrasesLower.

(** A title matches a phrase list when some phrase of the list, once
    normalized, is not empty and occurs in the title. *)
Definition phraseMatches (titleLower : string) (phrases : option (list string)) : Prop :=
  exists l p, phrases = Some l /\ In p l /\
              normalizeText p <> "" /\ Substring (normalizeText p) titleLower.

(** [setHidden] no longer hides: it only marks the card, the style sheet
    draws the overlay. *)
Definition setHidden (card : Element) (shouldHide : bool) : Element :=
  if shouldHide then setAttribute card HIDDEN_ATTR "1"
  else removeAttribute card HIDDEN_ATTR.

Definition setHighlighted (card : Element) (shouldHighlight : bool) : Element :=
  if shouldHighlight then setAttribute card HIGHLIGHT_ATTR "1"
  else removeAttribute card HIGHLIGHT_ATTR.

(** Numbers are IEEE 754 binary64 values, as in JavaScript; a decimal
    literal denotes the nearest such value in both languages. *)
Definition calculateTrueBidTotal (bidAmount : float) : float :=
  let afterPremium := (bidAmount * 1.175)%float in
  let freightCharge := if (bidAmount <=? 5)%float then 0.25%float else 1.00%float in
  let subtotal := (afterPremium + freightCharge)%float in
  let total := (subtotal * 1.095)%float in
  total.

Definition ENHANCED_ATTR : string := "data-phrasefilter-enhanced".

Section WithHost.
Context {host_env : HostEnv}.

Definition findTitleElementForHost (host : string) (card : Element) : option Element :=
  let titleSelector := getTitleSelectorForHost host in
  if negb (truthy titleSelector) then None
  else
    match querySelector card titleSelector with
    | None => None
    | Some el => Some el
    end.

(** [currentHost] is a variable of the script; the functions that read it
    take it as their first argument. *)
Definition getTitleTextFromCard (currentHost : string) (card : Element) : string :=
  match findTitleElementForHost currentHost card with
  | None => ""
  | Some titleEl =>
      trim (or_else (or_opt (getAttribute titleEl "title") (Some (textContent titleEl))) "")
  end.

(** [parseFloat] applies [ToString] to its argument: [null] reads "null". *)
Definition enhanceBidButton (button : Element) : Element :=
  if hasAttribute button ENHANCED_ATTR then button
  else
    let bidAmount := parseFloat (from_option id "null" (getAttribute button "data-bid")) in
    if PrimFloat.is_nan bidAmount then button
    else
      let trueTotal := calculateTrueBidTotal bidAmount in
      let originalText := trim (textContent button) in
      let button' :=
        setTextContent button
          (originalText +:+ " ($" +:+ toFixed trueTotal 2 +:+ " total)") in
      setAttribute button' ENHANCED_ATTR "1".

Definition applyRulesToCard (currentHost : string) (card : Element) (rules : SiteRules)
  : Element :=
  let titleLower := normalizeText (getTitleTextFromCard currentHost card) in
  if negb (truthy titleLower) then
    setHighlighted (setHidden card false) false
  else
    let includePhrasesLower := normalizePhrases (includePhrases rules) in
    let excludePhrasesLower := normalizePhrases (excludePhrases rules) in
    let isExcluded := hasAnyPhrase titleLower excludePhrasesLower in
    if isExcluded then
      setHidden (setHighlighted card false) true
    else
      let isIncluded := hasAnyPhrase titleLower includePhrasesLower in
      setHighlighted (setHidden card false) isIncluded.

End WithHost.

(** *** The page *)

Definition newline : string := String "010"%char EmptyString.

(** The template literal of [injectHighlightCssOnce], before [.trim()]. *)
Definition styleTemplate : string :=
  String.concat newline
    [ "";
      "    [" +:+ HIGHLIGHT_ATTR +:+ "=" +:+ dquote +:+ "1" +:+ dquote +:+ "] {";
      "      outline: 3px solid #f59e0b !important;";
      "      outline-offset: 2px !important;";
      "      box-shadow: 0 0 0 4px rgba(245, 158, 11, 0.25) !important;";
      "    }";
      "";
      "    /* Excluded cards: blue overlay, but keep content legible and clickable. */";
      "    [" +:+ HIDDEN_ATTR +:+ "=" +:+ dquote +:+ "1" +:+ dquote +:+ "] {";
      "      position: relative !important;";
      "    }";
      "";
      "    [" +:+ HIDDEN_ATTR +:+ "=" +:+ dquote +:+ "1" +:+ dquote +:+ "]::after {";
      "      content: " +:+ dquote +:+ dquote +:+ " !important;";
      "      position: absolute !important;";
      "      inset: 0 !important;";
      "      background: rgba(29, 78, 216, 0.75) !important;";
      "      box-shadow: inset 0 0 0 9999px rgba(0, 0, 0, 0.45) !important;";
      "      pointer-events: none !important;";
      "      border-radius: inherit !important;";
      "    }";
      "  " ].

Definition createElement (tag : string) : Element :=
  {| tagName := tag; attributes := ∅; styleDisplay := ""; childNodes := [] |}.

(** [None]: [document.head] is [null] and [appendChild] throws, before the
    script has changed anything. *)
Definition injectHighlightCssOnce (root : Element) : option Element :=
  let id := "phrasefilter-style" in
  if hasElementById id root then Some root
  else
    let style := createElement "style" in
    let style := setAttribute style "id" id in
    let style := setTextContent style (trim styleTemplate) in
    match headIndex root with
    | Some i => Some (updatePath (fun head => appendChild head style) [i] root)
    | None => None
    end.

(** The second argument of [console.debug]. *)
Inductive LogExtra : Type :=
  | NoExtra
  | AppliedRulesExtra (host : string) (effectiveSelector : option string)
      (cardsSeen includeCount excludeCount : nat).

Record LogEntry : Type :=
  mkLogEntry { logMessage : string; logExtra : LogExtra }.

(** An installed [MutationObserver]: the rules its callback closes over and
    the options of [observe]. *)
Record Observer : Type :=
  mkObserver { observerRules : SiteRules; childList : bool; subtree : bool }.

(** The variables of the script, the document and the console. *)
Record State : Type :=
  mkState { currentHost : string;
            currentRules : SiteRules;
            observerHandle : option Observer;
            document : Element;
            console : list LogEntry }.

Definition setDocument (st : State) (d : Element) : State :=
  {| currentHost := currentHost st; currentRules := currentRules st;
     observerHandle := observerHandle st; document := d; console := console st |}.

Definition setObserverHandle (st : State) (o : option Observer) : State :=
  {| currentHost := currentHost st; currentRules := currentRules st;
     observerHandle := o; document := document st; console := console st |}.

Definition log (msg : string) (extra : LogExtra) (st : State) : State :=
  {| currentHost := currentHost st; currentRules := currentRules st;
     observerHandle := observerHandle st; document := document st;
     console := console st ++ [ {| logMessage := "[PhraseFilter] " +:+ msg;
                                   logExtra := extra |} ] |}.

Section WithHostPage.
Context {host_env : HostEnv}.

Definition enhanceBidButtons (currentHost : string) (root : Element) : Element :=
  if negb (hostMatchesDomain currentHost "bidfta.com") then root
  else
    let bidButtons := querySelectorAll root "button[data-bid]" in
    forEachPath enhanceBidButton bidButtons root.

(** [phrases || []] then [.length]. *)
Definition phraseCount (phrases : option (list string)) : nat :=
  match phrases with Some l => length l | None => 0 end.

(** [querySelectorAll] applies [ToString] to its argument: [undefined]
    reads "undefined". *)
Definition applyRulesToPage (rules : SiteRules) (st : State) : option State :=
  match injectHighlightCssOnce (document st) with
  | None => None
  | Some doc =>
      let effectiveSelector := getItemSelectorForHost (currentHost st) in
      let cards := querySelectorAll doc (from_option id "undefined" effectiveSelector) in
      let doc :=
        forEachPath (fun card => applyRulesToCard (currentHost st) card rules) cards doc in
      let doc := enhanceBidButtons (currentHost st) doc in
      Some (log "Applied rules"
              (AppliedRulesExtra (currentHost st) effectiveSelector (length cards)
                 (phraseCount (includePhrases rules))
                 (phraseCount (excludePhrases rules)))
              (setDocument st doc))
  end.

(** The loop of the observer callback: [added] becomes [true], and the loop
    is left, at the first record whose [addedNodes] is not empty. *)
Fixpoint anyAdded (mutations : list MutationRecord) : bool :=
  match mutations with
  | [] => false
  | m :: rest =>
      if negb (Nat.eqb (length (addedNodes m)) 0) then true else anyAdded rest
  end.

(** The callback [startObserver] gives to [MutationObserver]. *)
Definition observerCallback (rules : SiteRules) (mutations : list MutationRecord)
    (st : State) : option State :=
  let added := anyAdded mutations in
  if negb added then Some st
  else applyRulesToPage rules st.

Definition startObserver (rules : SiteRules) : Observer :=
  {| observerRules := rules; childList := true; subtree := true |}.

(** Disconnecting the previous observer is the overwrite of the handle. *)
Definition onRulesReady (st : State) : option State :=
  let st := setObserverHandle st (Some (startObserver (currentRules st))) in
  applyRulesToPage (currentRules st) st.

(** The browser delivers a batch of mutation records to the installed
    observer, when there is one. *)
Definition deliverMutations (mutations : list MutationRecord) (st : State)
  : option State :=
  match observerHandle st with
  | None => Some st
  | Some o => observerCallback (observerRules o) mutations st
  end.

(** Scans that ran to their end: each leaves one "Applied rules" entry. *)
Definition isScanEntry (e : LogEntry) : bool :=
  match logExtra e with
  | AppliedRulesExtra _ _ _ _ _ => true
  | NoExtra => false
  end.

Definition scanCount (st : State) : nat :=
  length (List.filter isScanEntry (console st)).

End WithHostPage.

End Content.

(** ** The earlier revisions

    Only the functions that differ from the current script and that the
    properties below compare with it. *)
Module Legacy.
Import JsString Dom.

Definition HIDDEN_ATTR : string := "data-phrasefilter-hidden".

(** [ITEM_SELECTOR_BY_DOMAIN] and [DEFAULT_ITEM_SELECTOR] of the script in
    [src/unnamed/part_000]. *)
Definition ITEM_SELECTOR_BY_DOMAIN : list (string * string) :=
  [ ("bidfta.com",
     "div[role=" +:+ dquote +:+ "button" +:+ dquote +:+ "][aria-label=" +:+
     dquote +:+ "Click to navigate to item details" +:+ dquote +:+ "]");
    ("govdeals.com", "div.card.card-search") ].

Definition DEFAULT_ITEM_SELECTOR : string :=
  "div[role=" +:+ dquote +:+ "button" +:+ dquote +:+ "][aria-label=" +:+
  dquote +:+ "Click to navigate to item details" +:+ dquote +:+ "]".

(** [None]: the loop ended, by exhaustion or by [break], without a [return]. *)
Fixpoint getItemSelectorForHost_loop
    (entries : list (string * string)) (host : string) : option string :=
  match entries with
  | [] => None
  | (domain, selector) :: rest =>
      if negb (Content.hostMatchesDomain host domain)
      then getItemSelectorForHost_loop rest host
      else
        let trimmed := trim (or_else (Some selector) "") in
        if truthy trimmed then Some trimmed else None
  end.

(** [getItemSelectorForHost] of [src/unnamed/part_000]: after the loop,
    [return DEFAULT_ITEM_SELECTOR]. *)
Definition getItemSelectorForHost (host : string) : string :=
  match getItemSelectorForHost_loop ITEM_SELECTOR_BY_DOMAIN host with
  | Some trimmed => trimmed
  | None => DEFAULT_ITEM_SELECTOR
  end.

(** [setHidden] of the first document of [src/extension/content.js]. *)
Definition setHidden {cssom : CssomEnv} (card : Element) (shouldHide : bool) : Element :=
  if shouldHide then
    setAttribute (setStyleDisplay card "none") HIDDEN_ATTR "1"
  else
    if bool_decide (getAttribute card HIDDEN_ATTR = Some "1") then
      removeAttribute (setStyleDisplay card "") HIDDEN_ATTR
    else card.

Section WithHost.
Context {host_env : HostEnv}.

Definition findTitleH4 (card : Element) : option Element :=
  match querySelector card "h4" with
  | None => None
  | Some h4 => Some h4
  end.

(** [getTitleTextFromCard] of the first document of
    [src/extension/content.js]: the rendered text comes first. *)
Definition getTitleTextFromCard (card : Element) : string :=
  match findTitleH4 card with
  | None => ""
  | Some h4 =>
      trim (or_else (or_opt (Some (textContent h4)) (getAttribute h4 "title")) "")
  end.

End WithHost.

End Legacy.

(** ** Predicates on strings used to state properties *)
Module JsStringSpec.
Import JsString.

(** A string made of white space only (the empty string included). *)
Definition blank (s : string) : Prop :=
  forall c, In c (String.list_ascii_of_string s) -> isWhiteSpace c = true.

(** The first and the last code unit of a string. *)
Definition first (s : string) : option ascii :=
  match s with
  | EmptyString => None
  | String c _ => Some c
  end.

Fixpoint last (s : string) : option ascii :=
  match s with
  | EmptyString => None
  | String c EmptyString => Some c
  | String _ s' => last s'
  end.

End JsStringSpec.

(** ** Storage, start-up and rule changes of the content script *)
Module Lifecycle.
Import JsString Dom Content.

(** A phrase list as [chrome.storage] holds it inside a site's rules object:
    the property may be absent, [null], or an array of strings. *)
Inductive StoredField : Type :=
  | Absent
  | Null
  | Stored (phrases : list string).

Record StoredRules : Type :=
  mkStoredRules { storedInclude : StoredField; storedExclude : StoredField }.

(** The value kept under [STORAGE_KEY]: an object from host names to site
    rules, or anything that is not a truthy object. *)
Inductive StoredValue : Type :=
  | NotAnObject
  | RulesByHost (rulesByHost : gmap string StoredRules).

(** [loadRulesByHost]; [None] is a storage without the key. *)
Definition loadRulesByHost (stored : option StoredValue) : gmap string StoredRules :=
  match stored with
  | Some (RulesByHost rulesByHost) => rulesByHost
  | _ => ∅
  end.

(** One property of [{ ...defaultSiteRules(), ...(siteRules || {}) }]: a
    property the stored object has, [null] included, replaces the default. *)
Definition spreadField (default : option (list string)) (f : StoredField)
  : option (list string) :=
  match f with
  | Absent => default
  | Null => None
  | Stored l => Some l
  end.

Definition spreadSiteRules (siteRules : option StoredRules) : SiteRules :=
  match siteRules with
  | None => defaultSiteRules
  | Some r =>
      {| includePhrases := spreadField (includePhrases defaultSiteRules) (storedInclude r);
         excludePhrases := spreadField (excludePhrases defaultSiteRules) (storedExclude r) |}
  end.

Definition loadSiteRules (stored : option StoredValue) (host : string) : SiteRules :=
  let rulesByHost := loadRulesByHost stored in
  let siteRules := rulesByHost !! host in
  spreadSiteRules siteRules.

(** [safeHostFromLocation]: [None] is a [window.location] whose access
    throws. *)
Definition safeHostFromLocation (locationHost : option string) : string :=
  or_else locationHost "".

(** One entry of the [changes] argument of [chrome.storage.onChanged]. *)
Record StorageChange : Type :=
  mkStorageChange { oldValue : option StoredValue; newValue : option StoredValue }.

Definition setCurrentHost (st : State) (host : string) : State :=
  {| currentHost := host; currentRules := currentRules st;
     observerHandle := observerHandle st; document := document st;
     console := console st |}.

Definition setCurrentRules (st : State) (rules : SiteRules) : State :=
  {| currentHost := currentHost st; currentRules := rules;
     observerHandle := observerHandle st; document := document st;
     console := console st |}.

(** The script when it is loaded into a page. *)
Definition initialState (doc : Element) : State :=
  {| currentHost := ""; currentRules := defaultSiteRules; observerHandle := None;
     document := doc; console := [] |}.

(** The running script: its state, and whether [init] got as far as
    registering the storage listener. *)
Record Runtime : Type :=
  mkRuntime { script : State; storageListener : bool }.

Section WithHost.
Context {host_env : HostEnv}.

(** The listener [init] gives to [chrome.storage.onChanged]. *)
Definition onStorageChanged (changes : gmap string StorageChange) (areaName : string)
    (st : State) : option State :=
  if negb (String.eqb areaName "sync") then Some st
  else
    match changes !! STORAGE_KEY with
    | None => Some st
    | Some changed =>
        let nextRulesByHost :=
          match newValue changed with
          | Some (RulesByHost m) => m
          | _ => ∅
          end in
        let nextSiteRules := nextRulesByHost !! currentHost st in
        let st := setCurrentRules st (spreadSiteRules nextSiteRules) in
        onRulesReady st
    end.

(** [init], with what it awaits given as arguments: the host of the page
    and the stored value.  [None]: an exception escaped. *)
Definition init (locationHost : option string) (stored : option StoredValue)
    (st : State) : option Runtime :=
  let st := setCurrentHost st (safeHostFromLocation locationHost) in
  if negb (truthy (currentHost st)) then
    Some {| script := log "No host detected; skipping" NoExtra st;
            storageListener := false |}
  else
    let st := setCurrentRules st (loadSiteRules stored (currentHost st)) in
    match onRulesReady st with
    | None => None
    | Some st => Some {| script := st; storageListener := true |}
    end.

(** The browser reports a storage change to the listener, when one is
    registered. *)
Definition deliverStorageChange (changes : gmap string StorageChange)
    (areaName : string) (rt : Runtime) : option Runtime :=
  if storageListener rt then
    match onStorageChanged changes areaName (script rt) with
    | None => None
    | Some st => Some {| script := st; storageListener := true |}
    end
  else Some rt.


End WithHost.

End Lifecycle.

(** ** Runs of the content script *)
Module LifecycleSpec.
Import JsString Dom Content Lifecycle.

Section WithHost.
Context {host_env : HostEnv}.



End WithHost.

(** Two places of a tree neither of which lies under the other. *)
Definition incomparable (p q : Path) : Prop :=
  ~ p `prefix_of` q /\ ~ q `prefix_of` p.

End LifecycleSpec.

(** ** The popup: how the stored rules are edited

    [extension/popup.js] (second document of [src/extension/popup.js]).  Of
    [addPhrase], the remove buttons and [resetSite], the effect on the stored
    value is modelled; the status label and the rendering of the lists are
    left out. *)
Module Popup.
Import JsString Dom Content Lifecycle.

(** [input.value] is a string. *)
Definition normalizePhrase (s : string) : string :=
  trim (or_else (Some s) "").

(** [Array.from(new Set(arr))]: a [Set] keeps each value once, in the order
    of first insertion. *)
Fixpoint uniq_from (seen : gset string) (arr : list string) : list string :=
  match arr with
  | [] => []
  | x :: rest =>
      if bool_decide (x ∈ seen) then uniq_from seen rest
      else x :: uniq_from ({[x]} ∪ seen) rest
  end.

Definition uniq (arr : list string) : list string := uniq_from ∅ arr.

Definition loadAllRules (stored : option StoredValue) : gmap string StoredRules :=
  match stored with
  | Some (RulesByHost rulesByHost) => rulesByHost
  | _ => ∅
  end.

Definition saveAllRules (rulesByHost : gmap string StoredRules) : option StoredValue :=
  Some (RulesByHost rulesByHost).

Definition defaultSiteRules : StoredRules :=
  {| storedInclude := Stored []; storedExclude := Stored [] |}.

(** [phrases || []]. *)
Definition orEmpty (f : StoredField) : list string :=
  match f with
  | Stored l => l
  | _ => []
  end.

(** The stored value after [addPhrase({host, kind, inputIdOverride})];
    [input] is the value of the input element, [None] when the element is
    missing. *)
Definition addPhrase (host kind : string) (input : option string)
    (stored : option StoredValue) : option StoredValue :=
  match input with
  | None => stored
  | Some value =>
      let phrase := normalizePhrase value in
      if negb (truthy host) then stored
      else if negb (truthy phrase) then stored
      else
        let rulesByHost := loadAllRules stored in
        let siteRules := from_option id defaultSiteRules (rulesByHost !! host) in
        let siteRules :=
          if String.eqb kind "include" then
            {| storedInclude := Stored (uniq (orEmpty (storedInclude siteRules) ++ [phrase]));
               storedExclude := storedExclude siteRules |}
          else
            {| storedInclude := storedInclude siteRules;
               storedExclude := Stored (uniq (orEmpty (storedExclude siteRules) ++ [phrase])) |} in
        saveAllRules (<[host := siteRules]> rulesByHost)
  end.

(** [arr.filter((p) => p !== phrase)]. *)
Definition without (phrase : string) (arr : list string) : list string :=
  List.filter (fun p => negb (String.eqb p phrase)) arr.

(** The [onRemove] callback of the include list, and of the exclude list. *)
Definition removeInclude (host phrase : string) (stored : option StoredValue)
  : option StoredValue :=
  let all := loadAllRules stored in
  let current := from_option id defaultSiteRules (all !! host) in
  let current :=
    {| storedInclude := Stored (without phrase (orEmpty (storedInclude current)));
       storedExclude := storedExclude current |} in
  saveAllRules (<[host := current]> all).

Definition removeExclude (host phrase : string) (stored : option StoredValue)
  : option StoredValue :=
  let all := loadAllRules stored in
  let current := from_option id defaultSiteRules (all !! host) in
  let current :=
    {| storedInclude := storedInclude current;
       storedExclude := Stored (without phrase (orEmpty (storedExclude current))) |} in
  saveAllRules (<[host := current]> all).

Definition resetSite (host : string) (stored : option StoredValue)
  : option StoredValue :=
  if negb (truthy host) then stored
  else
    let rulesByHost := loadAllRules stored in
    match rulesByHost !! host with
    | Some _ => saveAllRules (delete host rulesByHost)
    | None => stored
    end.

End Popup.

(** ** A small host, to run the model

    A selector engine for type selectors (a tag name), for
    [button[data-bid]] and for the BidFTA card selector, and the two number built-ins on the inputs the
    examples use: [parseFloat] on unsigned decimal integers, [toFixed] on
    finite numbers, rounding the exact binary value half up. *)
Module SampleHost.
Import JsString Dom.

Definition BIDFTA_CARD : string :=
  "div[role=" +:+ dquote +:+ "button" +:+ dquote +:+ "][aria-label=" +:+
  dquote +:+ "Click to navigate to item details" +:+ dquote +:+ "]".

Definition selects (sel : string) (el : Element) : bool :=
  if String.eqb sel "button[data-bid]" then
    String.eqb (tagName el) "button" && hasAttribute el "data-bid"
  else if String.eqb sel BIDFTA_CARD then
    String.eqb (tagName el) "div" &&
    bool_decide (getAttribute el "role" = Some "button") &&
    bool_decide (getAttribute el "aria-label" = Some "Click to navigate to item details")
  else String.eqb (tagName el) sel.

(** First descendant, in document order, that the selector selects. *)
Fixpoint firstMatch (sel : string) (el : Element) : option Element :=
  (fix first (ns : list Node) : option Element :=
     match ns with
     | [] => None
     | TextNode _ :: rest => first rest
     | ElementNode c :: rest =>
         if selects sel c then Some c
         else match firstMatch sel c with
              | Some r => Some r
              | None => first rest
              end
     end) (childNodes el).

(** Places of the elements the selector selects, the root included. *)
Fixpoint allMatches (sel : string) (el : Element) : list Path :=
  (if selects sel el then [[]] else []) ++
  (fix all (i : nat) (ns : list Node) : list Path :=
     match ns with
     | [] => []
     | TextNode _ :: rest => all (S i) rest
     | ElementNode c :: rest =>
         List.map (cons i) (allMatches sel c) ++ all (S i) rest
     end) 0 (childNodes el).

Fixpoint digits (s : string) (acc : Z) : option Z :=
  match s with
  | EmptyString => Some acc
  | String c rest =>
      match Ascii.is_nat c with
      | Some d => digits rest (10 * acc + Z.of_nat d)
      | None => None
      end
  end.

Definition parseUnsigned (s : string) : float :=
  match s with
  | EmptyString => PrimFloat.nan
  | _ =>
      match digits s 0 with
      | Some z => PrimFloat.of_uint63 (Uint63.of_Z z)
      | None => PrimFloat.nan
      end
  end.

Definition decimal (z : Z) : string :=
  DecimalString.NilZero.string_of_uint (N.to_uint (Z.to_N z)).

Fixpoint zeros (n : nat) : string :=
  match n with
  | O => EmptyString
  | S n' => "0" +:+ zeros n'
  end.

Definition padLeft (n : nat) (s : string) : string :=
  zeros (n - String.length s) +:+ s.

(** The integer [n] for which [n / 10^d] is nearest to [m * 2^e], the larger
    one on a tie. *)
Definition scaled (m : positive) (e : Z) (d : nat) : Z :=
  let num := (Z.pos m * 10 ^ Z.of_nat d)%Z in
  if (0 <=? e)%Z then (num * 2 ^ e)%Z
  else ((2 * num + 2 ^ (- e)) / 2 ^ (1 - e))%Z.

Definition toFixedFinite (x : float) (d : nat) : string :=
  match Prim2SF x with
  | SpecFloat.S754_zero _ => "0" +:+ (if Nat.eqb d 0 then "" else "." +:+ zeros d)
  | SpecFloat.S754_finite s m e =>
      let n := scaled m e d in
      let whole := (n / 10 ^ Z.of_nat d)%Z in
      let frac := (n mod 10 ^ Z.of_nat d)%Z in
      (if s then "-" else "") +:+ decimal whole +:+
      (if Nat.eqb d 0 then "" else "." +:+ padLeft d (decimal frac))
  | SpecFloat.S754_infinity s => (if s then "-" else "") +:+ "Infinity"
  | SpecFloat.S754_nan => "NaN"
  end.

#[export] Instance sampleHost : HostEnv :=
  {| querySelector := fun el sel => firstMatch sel el;
     querySelectorAll := fun root sel => allMatches sel root;
     parseFloat := parseUnsigned;
     toFixed := toFixedFinite |}.

Definition text (s : string) : Node := TextNode s.

Definition titled (tag : string) (title : option string) (content : string) : Element :=
  {| tagName := tag;
     attributes := match title with Some t => {[ "title" := t ]} | None => ∅ end;
     styleDisplay := "";
     childNodes := if truthy content then [TextNode content] else [] |}.

(** A BidFTA card whose [h4] carries the given title attribute and text. *)
Definition card (title : option string) (content : string) : Element :=
  {| tagName := "div";
     attributes :=
       {[ "role" := "button"; "aria-label" := "Click to navigate to item details" ]};
     styleDisplay := "";
     childNodes := [ElementNode (titled "h4" title content)] |}.

Definition bidButton (bid label : string) : Element :=
  {| tagName := "button";
     attributes := {[ "data-bid" := bid ]};
     styleDisplay := "";
     childNodes := [TextNode label] |}.

Definition rules : Content.SiteRules :=
  {| Content.includePhrases := Some ["dewalt"];
     Content.excludePhrases := Some ["broken"] |}.

(** A page: an empty head, and a body holding cards and a bid button. *)
Definition page : Element :=
  {| tagName := "html"; attributes := ∅; styleDisplay := "";
     childNodes :=
       [ ElementNode (Content.createElement "head");
         ElementNode
           {| tagName := "body"; attributes := ∅; styleDisplay := "";
              childNodes :=
                [ ElementNode (card (Some "DeWalt Drill - Broken case") "DeWalt Drill");
                  ElementNode (card None "Dewalt Impact Driver");
                  ElementNode (bidButton "10" " Bid $10 ") ] |} ] |}.

Definition state : Content.State :=
  {| Content.currentHost := "www.bidfta.com";
     Content.currentRules := rules;
     Content.observerHandle := Some (Content.startObserver rules);
     Content.document := page;
     Content.console := [] |}.

Definition added (n : Node) : MutationRecord :=
  {| mutationType := "childList"; addedNodes := [n]; removedNodes := [];
     attributeName := None |}.

Definition removed (n : Node) : MutationRecord :=
  {| mutationType := "childList"; addedNodes := []; removedNodes := [n];
     attributeName := None |}.

(** A batch adding three card nodes, and a batch only removing one. *)
Definition batchAdding : list MutationRecord :=
  [ {| mutationType := "childList";
       addedNodes := [ ElementNode (card None "a");
                       ElementNode (card None "b");
                       ElementNode (card None "c") ];
       removedNodes := []; attributeName := None |} ].

Definition batchRemoving : list MutationRecord :=
  [ removed (ElementNode (card None "a")) ].

End SampleHost.

(** ** A second small host: a GovDeals page

    Its selector engine knows the two GovDeals selectors: the card selector
    [div.card.card-search] and the title selector [.card-title a]. *)
Module SampleGovDeals.
Import JsString Dom.

Definition hasClass (cls : string) (el : Element) : bool :=
  match getAttribute el "class" with
  | Some v => bool_decide (cls ∈ String.words v)
  | None => false
  end.

Definition isCard (el : Element) : bool :=
  String.eqb (tagName el) "div" && hasClass "card" el && hasClass "card-search" el.

(** First [a] element, in document order, below an element of class
    [card-title]; [inside] tells whether such an element was passed. *)
Fixpoint firstTitleLink (inside : bool) (el : Element) : option Element :=
  (fix first (ns : list Node) : option Element :=
     match ns with
     | [] => None
     | TextNode _ :: rest => first rest
     | ElementNode c :: rest =>
         if (inside || hasClass "card-title" el) && String.eqb (tagName c) "a"
         then Some c
         else match firstTitleLink (inside || hasClass "card-title" el) c with
              | Some r => Some r
              | None => first rest
              end
     end) (childNodes el).

Fixpoint allCards (el : Element) : list Path :=
  (if isCard el then [[]] else []) ++
  (fix all (i : nat) (ns : list Node) : list Path :=
     match ns with
     | [] => []
     | TextNode _ :: rest => all (S i) rest
     | ElementNode c :: rest => List.map (cons i) (allCards c) ++ all (S i) rest
     end) 0 (childNodes el).

#[export] Instance govDealsHost : HostEnv :=
  {| querySelector := fun el sel =>
       if String.eqb sel ".card-title a" then firstTitleLink false el
       else SampleHost.firstMatch sel el;
     querySelectorAll := fun root sel =>
       if String.eqb sel "div.card.card-search" then allCards root
       else SampleHost.allMatches sel root;
     parseFloat := SampleHost.parseUnsigned;
     toFixed := SampleHost.toFixedFinite |}.

(** A GovDeals card: [div.card.card-search > p.card-title > a]. *)
Definition card (title : string) : Element :=
  {| tagName := "div";
     attributes := {[ "class" := "card card-search card-search-minh" ]};
     styleDisplay := "";
     childNodes :=
       [ ElementNode
           {| tagName := "p"; attributes := {[ "class" := "card-title" ]};
              styleDisplay := "";
              childNodes :=
                [ ElementNode
                    {| tagName := "a"; attributes := ∅; styleDisplay := "";
                       childNodes := [TextNode title] |} ] |} ] |}.

Definition page : Element :=
  {| tagName := "html"; attributes := ∅; styleDisplay := "";
     childNodes :=
       [ ElementNode (Content.createElement "head");
         ElementNode
           {| tagName := "body"; attributes := ∅; styleDisplay := "";
              childNodes :=
                [ ElementNode (card "DeWalt Saw");
                  ElementNode (card "Broken Lathe");
                  ElementNode (Content.createElement "footer") ] |} ] |}.

Definition state : Content.State :=
  {| Content.currentHost := "www.govdeals.com";
     Content.currentRules := SampleHost.rules;
     Content.observerHandle := None;
     Content.document := page;
     Content.console := [] |}.

(** The page once the style sheet is in its head. *)
Definition styledPage : Element :=
  from_option id page (Content.injectHighlightCssOnce page).

(** A stored value: rules for two hosts. *)
Definition stored : option Lifecycle.StoredValue :=
  Some (Lifecycle.RulesByHost
          {[ "www.govdeals.com" :=
               {| Lifecycle.storedInclude := Lifecycle.Stored ["dewalt"];
                  Lifecycle.storedExclude := Lifecycle.Null |};
             "www.bidfta.com" :=
               {| Lifecycle.storedInclude := Lifecycle.Absent;
                  Lifecycle.storedExclude := Lifecycle.Stored ["parts only"] |} ]}).

Definition rulesChange : gmap string Lifecycle.StorageChange :=
  {[ Content.STORAGE_KEY :=
       {| Lifecycle.oldValue := None; Lifecycle.newValue := stored |} ]}.

Definition otherChange : gmap string Lifecycle.StorageChange :=
  {[ "theme" := {| Lifecycle.oldValue := None; Lifecycle.newValue := None |} ]}.




End SampleGovDeals.

(** ** A small style serializer

    The serialization of the inline style of an element that declares
    nothing but, at most, [display]. *)
Module SampleCssom.
Import JsString Dom.

#[export] Instance displayOnly : CssomEnv :=
  {| serializeInlineStyle := fun _ v =>
       if truthy v then "display: " +:+ v +:+ ";" else "" |}.

End SampleCssom.

(* ===================================================================== *)
(** * Part II.  Properties                                                *)
(* ===================================================================== *)

(** ** Strings *)
Module JsStringFacts.
Import JsString.

Lemma append_nil_l (s : string) : "" +:+ s = s.
Proof. reflexivity. Qed.

Lemma append_cons (c : ascii) (s t : string) :
  String c s +:+ t = String c (s +:+ t).
Proof. reflexivity. Qed.

Lemma append_nil_r (s : string) : s +:+ "" = s.
Proof.
  induction s as [|c s IH]; [reflexivity|].
  rewrite append_cons, IH. reflexivity.
Qed.

Lemma append_eq_nil (s t : string) : s +:+ t = "" -> s = "" /\ t = "".
Proof.
  destruct s as [|c s]; [rewrite append_nil_l; auto|].
  rewrite append_cons. discriminate.
Qed.

Lemma truthy_true (s : string) : truthy s = true <-> s <> "".
Proof. destruct s; simpl; split; congruence. Qed.

Lemma truthy_false (s : string) : truthy s = false <-> s = "".
Proof. destruct s; simpl; split; congruence. Qed.

Lemma or_else_some (s : string) : or_else (Some s) "" = s.
Proof. destruct s; reflexivity. Qed.

Lemma startsWith_spec (h p : string) :
  startsWith h p = true <-> exists post, h = p +:+ post.
Proof.
  revert h. induction p as [|a p IH]; intros h.
  - simpl. split; [intros _; exists h; reflexivity | reflexivity].
  - destruct h as [|b h]; simpl.
    + split; [discriminate|]. intros [post E]. rewrite append_cons in E. discriminate.
    + rewrite andb_true_iff, IH, Ascii.eqb_eq. split.
      * intros [-> [post ->]]. exists post. reflexivity.
      * intros [post E]. rewrite append_cons in E. injection E as -> ->. eauto.
Qed.

Lemma includes_spec (h p : string) : includes h p = true <-> Substring p h.
Proof.
  unfold Substring. induction h as [|c h IH].
  - simpl. rewrite orb_false_r, startsWith_spec. split.
    + intros [post E]. exists "", post. exact E.
    + intros [pre [post E]]. symmetry in E.
      apply append_eq_nil in E as [_ E]. apply append_eq_nil in E as [-> _].
      exists "". reflexivity.
  - simpl. rewrite orb_true_iff, startsWith_spec, IH. split.
    + intros [[post E] | [pre [post E]]].
      * exists "", post. exact E.
      * exists (String c pre), post. rewrite append_cons, E. reflexivity.
    + intros [[|c' pre] [post E]].
      * left. exists post. exact E.
      * right. rewrite append_cons in E. injection E as _ E. eauto.
Qed.

Lemma endsWith_spec (h p : string) : endsWith h p = true <-> Suffix p h.
Proof.
  unfold Suffix. induction h as [|c h IH].
  - cbn [endsWith]. rewrite orb_false_r, String.eqb_eq. split.
    + intros <-. exists "". reflexivity.
    + intros [pre E]. symmetry in E. apply append_eq_nil in E as [_ ->]. reflexivity.
  - cbn [endsWith]. rewrite orb_true_iff, String.eqb_eq, IH. split.
    + intros [<- | [pre E]].
      * exists "". reflexivity.
      * exists (String c pre). rewrite append_cons, E. reflexivity.
    + intros [[|c' pre] E].
      * left. exact E.
      * right. rewrite append_cons in E. injection E as _ E. eauto.
Qed.

Lemma Substring_nil (h : string) : Substring "" h.
Proof. exists "", h. reflexivity. Qed.

Lemma Substring_of_nil (p : string) : Substring p "" -> p = "".
Proof.
  intros [pre [post E]]. symmetry in E.
  apply append_eq_nil in E as [_ E]. apply append_eq_nil in E as [E _]. exact E.
Qed.

End JsStringFacts.

(** ** Hosts, domains and selector lookup *)
Module SelectorFacts.
Import JsString Dom Content JsStringFacts.

Lemma hostMatchesDomain_iff (host domain : string) :
  domain <> "" ->
  hostMatchesDomain host domain = true <->
  host = domain \/ Suffix ("." +:+ domain) host.
Proof.
  intros Hd. unfold hostMatchesDomain.
  destruct host as [|c host].
  - simpl. split; [discriminate|].
    intros [E | [pre E]]; [congruence|].
    symmetry in E. apply append_eq_nil in E as [_ E]. discriminate.
  - apply truthy_true in Hd. rewrite Hd. cbn [truthy negb orb].
    rewrite orb_true_iff, String.eqb_eq, endsWith_spec. reflexivity.
Qed.

Lemma table_domains_nonempty (domain selector : string) :
  In (domain, selector) ITEM_SELECTOR_BY_DOMAIN \/
  In (domain, selector) TITLE_SELECTOR_BY_DOMAIN ->
  domain <> "".
Proof.
  unfold ITEM_SELECTOR_BY_DOMAIN, TITLE_SELECTOR_BY_DOMAIN. simpl.
  intros [[E | [E | []]] | [E | [E | []]]]; injection E as <- _; discriminate.
Qed.

Lemma item_loop_no_match (entries : list (string * string)) (host : string) :
  (forall d s, In (d, s) entries -> hostMatchesDomain host d = false) ->
  getItemSelectorForHost_loop entries host = None.
Proof.
  induction entries as [|[d s] rest IH]; intros H; [reflexivity|].
  cbn [getItemSelectorForHost_loop].
  rewrite (H d s) by (left; reflexivity). cbn [negb].
  apply IH. intros d' s' Hin. apply (H d' s'). right. exact Hin.
Qed.

Lemma legacy_item_loop_no_match (entries : list (string * string)) (host : string) :
  (forall d s, In (d, s) entries -> hostMatchesDomain host d = false) ->
  Legacy.getItemSelectorForHost_loop entries host = None.
Proof.
  induction entries as [|[d s] rest IH]; intros H; [reflexivity|].
  cbn [Legacy.getItemSelectorForHost_loop].
  rewrite (H d s) by (left; reflexivity). cbn [negb].
  apply IH. intros d' s' Hin. apply (H d' s'). right. exact Hin.
Qed.

Lemma title_loop_no_match (entries : list (string * string)) (host : string) :
  (forall d s, In (d, s) entries -> hostMatchesDomain host d = false) ->
  getTitleSelectorForHost_loop entries host = "".
Proof.
  induction entries as [|[d s] rest IH]; intros H; [reflexivity|].
  cbn [getTitleSelectorForHost_loop].
  rewrite (H d s) by (left; reflexivity). cbn [negb].
  apply IH. intros d' s' Hin. apply (H d' s'). right. exact Hin.
Qed.

(** The earlier revision does fall back to its default selector, which is
    not empty. *)
Lemma legacy_getItemSelectorForHost_default (host : string) :
  (forall d s, In (d, s) Legacy.ITEM_SELECTOR_BY_DOMAIN ->
               hostMatchesDomain host d = false) ->
  Legacy.getItemSelectorForHost host = Legacy.DEFAULT_ITEM_SELECTOR /\
  Legacy.DEFAULT_ITEM_SELECTOR <> "".
Proof.
  intros H. unfold Legacy.getItemSelectorForHost.
  rewrite legacy_item_loop_no_match by exact H. split; [reflexivity|].
  vm_compute. discriminate.
Qed.

(** C3 (what the current script does).  For every host that matches no entry
    of [ITEM_SELECTOR_BY_DOMAIN] and no entry of [TITLE_SELECTOR_BY_DOMAIN],
    the title selector lookup returns the empty string, but the item selector
    lookup ends without a [return]: its result is [undefined], not a default
    selector. *)
Theorem getItemSelectorForHost_no_match_undefined (host : string) :
  (forall d s, In (d, s) ITEM_SELECTOR_BY_DOMAIN -> hostMatchesDomain host d = false) ->
  (forall d s, In (d, s) TITLE_SELECTOR_BY_DOMAIN -> hostMatchesDomain host d = false) ->
  getItemSelectorForHost host = None /\ getTitleSelectorForHost host = "".
Proof.
  intros Hi Ht. split.
  - apply item_loop_no_match, Hi.
  - apply title_loop_no_match, Ht.
Qed.

Lemma getItemSelectorForHost_no_match_undefined_witness :
  getItemSelectorForHost "example.com" = None /\
  getTitleSelectorForHost "example.com" = "".
Proof.
  apply (getItemSelectorForHost_no_match_undefined "example.com").
  - intros d s [E | [E | []]]; injection E as <- _; reflexivity.
  - intros d s [E | [E | []]]; injection E as <- _; reflexivity.
Defined.

(** C7.  For every host and every domain of the two tables, the host matches
    the domain exactly when it is the domain or ends with a dot followed by
    the domain.  So "shop.bidfta.com" resolves the selectors of the
    "bidfta.com" entries, and "notbidfta.com" resolves none. *)
Theorem hostMatchesDomain_exact_or_dot_suffix :
  (forall host domain selector,
      In (domain, selector) ITEM_SELECTOR_BY_DOMAIN \/
      In (domain, selector) TITLE_SELECTOR_BY_DOMAIN ->
      hostMatchesDomain host domain = true <->
      host = domain \/ Suffix ("." +:+ domain) host) /\
  (exists item title,
      In ("bidfta.com", item) ITEM_SELECTOR_BY_DOMAIN /\
      In ("bidfta.com", title) TITLE_SELECTOR_BY_DOMAIN /\
      getItemSelectorForHost "shop.bidfta.com" = Some item /\
      getTitleSelectorForHost "shop.bidfta.com" = title /\
      title <> "") /\
  hostMatchesDomain "notbidfta.com" "bidfta.com" = false /\
  getItemSelectorForHost "notbidfta.com" = None /\
  getTitleSelectorForHost "notbidfta.com" = "".
Proof.
  split; [|split; [|split; [|split]]].
  - intros host domain selector Hin.
    apply hostMatchesDomain_iff. eapply table_domains_nonempty, Hin.
  - eexists _, _. split; [left; reflexivity|]. split; [left; reflexivity|].
    split; [vm_compute; reflexivity|]. split; [vm_compute; reflexivity|discriminate].
  - reflexivity.
  - reflexivity.
  - reflexivity.
Qed.

Lemma hostMatchesDomain_exact_or_dot_suffix_witness :
  hostMatchesDomain "shop.bidfta.com" "bidfta.com" = true <->
  "shop.bidfta.com" = "bidfta.com" \/ Suffix ("." +:+ "bidfta.com") "shop.bidfta.com".
Proof.
  apply (proj1 hostMatchesDomain_exact_or_dot_suffix
           "shop.bidfta.com" "bidfta.com" "h4").
  right. left. reflexivity.
Defined.

End SelectorFacts.

(** ** Phrase matching *)
Module PhraseFacts.
Import JsString Dom Content JsStringFacts.

Lemma hasAnyPhrase_iff (h : string) (p : list string) :
  hasAnyPhrase h p = true <->
  h <> "" /\ exists q, In q p /\ q <> "" /\ Substring q h.
Proof.
  unfold hasAnyPhrase. destruct h as [|c h].
  - simpl. split; [discriminate | intros [E _]; congruence].
  - cbn [truthy negb]. destruct p as [|q0 p].
    + simpl. split; [discriminate | intros [_ [q [[] _]]]].
    + cbn [length Nat.eqb]. rewrite existsb_exists. split.
      * intros [q [Hin Hq]]. apply andb_true_iff in Hq as [Ht Hi].
        split; [discriminate|]. exists q.
        rewrite <- truthy_true, <- includes_spec. auto.
      * intros [_ [q [Hin [Hne Hs]]]]. exists q. split; [exact Hin|].
        apply andb_true_iff. rewrite truthy_true, includes_spec. auto.
Qed.

Lemma normalizePhrases_In (phrases : option (list string)) (q : string) :
  In q (normalizePhrases phrases) <->
  exists l p, phrases = Some l /\ In p l /\ q = normalizeText p /\ q <> "".
Proof.
  unfold normalizePhrases. rewrite filter_In, in_map_iff, truthy_true.
  destruct phrases as [l|].
  - split.
    + intros [[p [E Hin]] Hne]. exists l, p. auto.
    + intros [l' [p [E [Hin [Eq Hne]]]]]. injection E as <-. split; eauto.
  - split.
    + intros [[p [_ []]] _].
    + intros [l' [p [E _]]]. discriminate.
Qed.

Lemma normalizePhrases_no_empty (phrases : option (list string)) :
  ~ In "" (normalizePhrases phrases).
Proof.
  rewrite normalizePhrases_In. intros [l [p [_ [_ [_ H]]]]]. congruence.
Qed.

Lemma hasAnyPhrase_normalized (titleLower : string) (phrases : option (list string)) :
  hasAnyPhrase titleLower (normalizePhrases phrases) = true <->
  phraseMatches titleLower phrases.
Proof.
  rewrite hasAnyPhrase_iff. unfold phraseMatches. split.
  - intros [_ [q [Hin [Hne Hs]]]].
    apply normalizePhrases_In in Hin as [l [p [E [Hin [-> _]]]]]. eauto 8.
  - intros [l [p [E [Hin [Hne Hs]]]]]. split.
    + intros ->. apply Substring_of_nil in Hs. congruence.
    + exists (normalizeText p). split; [|auto].
      apply normalizePhrases_In. eauto 8.
Qed.

(** C6 (amended).  [hasAnyPhrase h p] is true exactly when [h] is not empty,
    [p] is not empty and some element of [p] that is itself not empty occurs
    in [h]; it is false for the empty list and for the empty haystack. *)
Theorem hasAnyPhrase_iff_nonempty_phrase_occurs (h : string) (p : list string) :
  (hasAnyPhrase h p = true <->
   h <> "" /\ p <> [] /\ exists q, In q p /\ q <> "" /\ Substring q h) /\
  hasAnyPhrase h [] = false /\
  hasAnyPhrase "" p = false.
Proof.
  split; [|split].
  - rewrite hasAnyPhrase_iff. split.
    + intros [Hh [q [Hin Hq]]]. split; [exact Hh|]. split; [|eauto].
      intros ->. destruct Hin.
    + intros [Hh [_ Hq]]. auto.
  - unfold hasAnyPhrase. destruct (negb (truthy h)); reflexivity.
  - reflexivity.
Qed.

(** C6 as stated fails on a list holding the empty phrase: the empty string
    occurs in "abc", yet the matcher answers false. *)
Lemma hasAnyPhrase_empty_phrase_counterexample :
  ~ (hasAnyPhrase "abc" [""] = true <->
     "abc" <> "" /\ [""] <> [] /\ exists q, In q [""] /\ Substring q "abc").
Proof.
  intros [_ H].
  assert (E : hasAnyPhrase "abc" [""] = true).
  { apply H. split; [discriminate|]. split; [discriminate|].
    exists "". split; [left; reflexivity | apply Substring_nil]. }
  vm_compute in E. discriminate.
Qed.

End PhraseFacts.

(** ** Cards: title extraction, markers, classification *)
Module CardFacts.
Import JsString Dom Content JsStringFacts PhraseFacts.

Lemma getAttribute_setAttribute (el : Element) (name value : string) :
  getAttribute (setAttribute el name value) name = Some value.
Proof. unfold getAttribute, setAttribute. simpl. apply lookup_insert_eq. Qed.

Lemma getAttribute_setAttribute_ne (el : Element) (name name' value : string) :
  name <> name' ->
  getAttribute (setAttribute el name value) name' = getAttribute el name'.
Proof. intros H. unfold getAttribute, setAttribute. simpl. by apply lookup_insert_ne. Qed.

Lemma getAttribute_removeAttribute (el : Element) (name : string) :
  getAttribute (removeAttribute el name) name = None.
Proof. unfold getAttribute, removeAttribute. simpl. apply lookup_delete_eq. Qed.

Lemma getAttribute_removeAttribute_ne (el : Element) (name name' : string) :
  name <> name' ->
  getAttribute (removeAttribute el name) name' = getAttribute el name'.
Proof. intros H. unfold getAttribute, removeAttribute. simpl. by apply lookup_delete_ne. Qed.

Lemma HIDDEN_neq_HIGHLIGHT : HIDDEN_ATTR <> HIGHLIGHT_ATTR.
Proof. discriminate. Qed.

Lemma HIGHLIGHT_neq_HIDDEN : HIGHLIGHT_ATTR <> HIDDEN_ATTR.
Proof. discriminate. Qed.

Create HintDb markers.
#[local] Hint Resolve HIDDEN_neq_HIGHLIGHT HIGHLIGHT_neq_HIDDEN : markers.

Ltac markers :=
  unfold setHidden, setHighlighted;
  repeat first
    [ rewrite getAttribute_setAttribute
    | rewrite getAttribute_removeAttribute
    | rewrite getAttribute_setAttribute_ne by auto with markers
    | rewrite getAttribute_removeAttribute_ne by auto with markers ].

(** Markers after the Excluded branch. *)
Lemma markers_excluded (card : Element) :
  getAttribute (setHidden (setHighlighted card false) true) HIDDEN_ATTR = Some "1" /\
  getAttribute (setHidden (setHighlighted card false) true) HIGHLIGHT_ATTR = None.
Proof. split; markers; reflexivity. Qed.

(** Markers after the two other branches. *)
Lemma markers_not_excluded (card : Element) (isIncluded : bool) :
  getAttribute (setHighlighted (setHidden card false) isIncluded) HIDDEN_ATTR = None /\
  getAttribute (setHighlighted (setHidden card false) isIncluded) HIGHLIGHT_ATTR =
    (if isIncluded then Some "1" else None).
Proof. destruct isIncluded; split; markers; reflexivity. Qed.

(** C5.  [setHidden] changes the exclusion marker and nothing else: the tag,
    the inline [display] style (so it never becomes [none] through it), the
    children and every other attribute stay as they were. *)
Theorem setHidden_changes_only_the_marker (card : Element) (shouldHide : bool) :
  tagName (setHidden card shouldHide) = tagName card /\
  styleDisplay (setHidden card shouldHide) = styleDisplay card /\
  childNodes (setHidden card shouldHide) = childNodes card /\
  (forall name, name <> HIDDEN_ATTR ->
     getAttribute (setHidden card shouldHide) name = getAttribute card name) /\
  getAttribute (setHidden card shouldHide) HIDDEN_ATTR =
    (if shouldHide then Some "1" else None).
Proof.
  destruct shouldHide; cbn [setHidden];
    (split; [reflexivity|]); (split; [reflexivity|]); (split; [reflexivity|]); split.
  - intros name H. apply getAttribute_setAttribute_ne. congruence.
  - apply getAttribute_setAttribute.
  - intros name H. apply getAttribute_removeAttribute_ne. congruence.
  - apply getAttribute_removeAttribute.
Qed.

(** The first revision did hide the card. *)
Lemma legacy_setHidden_hides {cssom : CssomEnv} (card : Element) :
  styleDisplay (Legacy.setHidden card true) = "none".
Proof. reflexivity. Qed.

Section WithHost.
Context {host_env : HostEnv}.

Lemma getTitleTextFromCard_found (currentHost : string) (card titleEl : Element) :
  findTitleElementForHost currentHost card = Some titleEl ->
  getTitleTextFromCard currentHost card =
  trim (or_else (or_opt (getAttribute titleEl "title") (Some (textContent titleEl))) "").
Proof. intros H. unfold getTitleTextFromCard. rewrite H. reflexivity. Qed.

(** C4 (amended).  When the card has a title element, the extracted text is
    the trimmed title attribute if that attribute is present and not empty,
    the trimmed text content otherwise, and the empty string when neither
    gives anything. *)
Theorem getTitleTextFromCard_trimmed_title_first
    (currentHost : string) (card titleEl : Element) :
  findTitleElementForHost currentHost card = Some titleEl ->
  (forall t, getAttribute titleEl "title" = Some t -> t <> "" ->
     getTitleTextFromCard currentHost card = trim t) /\
  (getAttribute titleEl "title" = None \/ getAttribute titleEl "title" = Some "" ->
     getTitleTextFromCard currentHost card = trim (textContent titleEl)) /\
  (getAttribute titleEl "title" = None \/ getAttribute titleEl "title" = Some "" ->
     textContent titleEl = "" ->
     getTitleTextFromCard currentHost card = "").
Proof.
  intros Hfound. rewrite (getTitleTextFromCard_found _ _ _ Hfound).
  split; [|split].
  - intros t -> Hne. apply truthy_true in Hne.
    unfold or_opt, or_else. rewrite Hne, Hne. reflexivity.
  - intros [-> | ->]; cbn [or_opt truthy]; rewrite or_else_some; reflexivity.
  - intros [-> | ->] ->; reflexivity.
Qed.

(** The first revision reads the rendered text first. *)
Lemma legacy_getTitleTextFromCard_text_first (card h4 : Element) :
  Legacy.findTitleH4 card = Some h4 ->
  textContent h4 <> "" ->
  Legacy.getTitleTextFromCard card = trim (textContent h4).
Proof.
  intros Hfound Hne. unfold Legacy.getTitleTextFromCard. rewrite Hfound.
  apply truthy_true in Hne. unfold or_opt, or_else. rewrite Hne, Hne. reflexivity.
Qed.

(** The three outcomes of [applyRulesToCard]. *)
Lemma applyRulesToCard_empty_title (currentHost : string) (card : Element) (rules : SiteRules) :
  normalizeText (getTitleTextFromCard currentHost card) = "" ->
  applyRulesToCard currentHost card rules = setHighlighted (setHidden card false) false.
Proof. intros H. unfold applyRulesToCard. rewrite H. reflexivity. Qed.

Lemma applyRulesToCard_excluded (currentHost : string) (card : Element) (rules : SiteRules) :
  hasAnyPhrase (normalizeText (getTitleTextFromCard currentHost card))
    (normalizePhrases (excludePhrases rules)) = true ->
  applyRulesToCard currentHost card rules = setHidden (setHighlighted card false) true.
Proof.
  intros H. unfold applyRulesToCard.
  destruct (normalizeText (getTitleTextFromCard currentHost card)) as [|c t] eqn:E.
  - discriminate H.
  - cbn [truthy negb]. rewrite H. reflexivity.
Qed.

Lemma applyRulesToCard_not_excluded (currentHost : string) (card : Element) (rules : SiteRules) :
  normalizeText (getTitleTextFromCard currentHost card) <> "" ->
  hasAnyPhrase (normalizeText (getTitleTextFromCard currentHost card))
    (normalizePhrases (excludePhrases rules)) = false ->
  applyRulesToCard currentHost card rules =
  setHighlighted (setHidden card false)
    (hasAnyPhrase (normalizeText (getTitleTextFromCard currentHost card))
       (normalizePhrases (includePhrases rules))).
Proof.
  intros Hne H. unfold applyRulesToCard.
  apply truthy_true in Hne. rewrite Hne, H. reflexivity.
Qed.

(** C1.  When the normalized title matches an exclude phrase and an include
    phrase, the card is Excluded: the exclusion marker is set, the highlight
    marker is cleared, and the outcome is the same whatever the include
    list is. *)
Theorem exclude_wins_over_include
    (currentHost : string) (card : Element) (rules : SiteRules) :
  phraseMatches (normalizeText (getTitleTextFromCard currentHost card))
    (excludePhrases rules) ->
  phraseMatches (normalizeText (getTitleTextFromCard currentHost card))
    (includePhrases rules) ->
  getAttribute (applyRulesToCard currentHost card rules) HIDDEN_ATTR = Some "1" /\
  getAttribute (applyRulesToCard currentHost card rules) HIGHLIGHT_ATTR = None /\
  forall others : option (list string),
    applyRulesToCard currentHost card
      {| includePhrases := others; excludePhrases := excludePhrases rules |} =
    applyRulesToCard currentHost card rules.
Proof.
  intros Hex _. apply hasAnyPhrase_normalized in Hex.
  rewrite (applyRulesToCard_excluded _ _ rules Hex).
  destruct (markers_excluded card) as [H1 H2].
  split; [exact H1|]. split; [exact H2|].
  intros others. apply applyRulesToCard_excluded. exact Hex.
Qed.

(** C2.  When the extracted title normalizes to the empty string, the card is
    Neutral whatever the rules are: both markers are cleared. *)
Theorem empty_title_is_neutral
    (currentHost : string) (card : Element) (rules : SiteRules) :
  normalizeText (getTitleTextFromCard currentHost card) = "" ->
  getAttribute (applyRulesToCard currentHost card rules) HIDDEN_ATTR = None /\
  getAttribute (applyRulesToCard currentHost card rules) HIGHLIGHT_ATTR = None.
Proof.
  intros H. rewrite (applyRulesToCard_empty_title _ _ _ H).
  apply (markers_not_excluded card false).
Qed.

(** C9.  After [applyRulesToCard] the card never carries both markers: it is
    Excluded (exclusion marker set, highlight cleared), Included (highlight
    set, exclusion cleared) or Neutral (both cleared). *)
Theorem markers_mutually_exclusive
    (currentHost : string) (card : Element) (rules : SiteRules) :
  ~ (is_Some (getAttribute (applyRulesToCard currentHost card rules) HIGHLIGHT_ATTR) /\
     is_Some (getAttribute (applyRulesToCard currentHost card rules) HIDDEN_ATTR)) /\
  (getAttribute (applyRulesToCard currentHost card rules) HIDDEN_ATTR = Some "1" /\
   getAttribute (applyRulesToCard currentHost card rules) HIGHLIGHT_ATTR = None
   \/
   getAttribute (applyRulesToCard currentHost card rules) HIDDEN_ATTR = None /\
   getAttribute (applyRulesToCard currentHost card rules) HIGHLIGHT_ATTR = Some "1"
   \/
   getAttribute (applyRulesToCard currentHost card rules) HIDDEN_ATTR = None /\
   getAttribute (applyRulesToCard currentHost card rules) HIGHLIGHT_ATTR = None).
Proof.
  assert (Hcases :
    getAttribute (applyRulesToCard currentHost card rules) HIDDEN_ATTR = Some "1" /\
    getAttribute (applyRulesToCard currentHost card rules) HIGHLIGHT_ATTR = None
    \/
    getAttribute (applyRulesToCard currentHost card rules) HIDDEN_ATTR = None /\
    getAttribute (applyRulesToCard currentHost card rules) HIGHLIGHT_ATTR = Some "1"
    \/
    getAttribute (applyRulesToCard currentHost card rules) HIDDEN_ATTR = None /\
    getAttribute (applyRulesToCard currentHost card rules) HIGHLIGHT_ATTR = None).
  { destruct (normalizeText (getTitleTextFromCard currentHost card)) as [|c t] eqn:Et.
    - right. right. rewrite (applyRulesToCard_empty_title _ _ _ Et).
      apply (markers_not_excluded card false).
    - destruct (hasAnyPhrase (String c t) (normalizePhrases (excludePhrases rules))) eqn:Ex.
      + left. rewrite applyRulesToCard_excluded by (rewrite Et; exact Ex).
        apply markers_excluded.
      + rewrite applyRulesToCard_not_excluded
          by (rewrite Et; first [discriminate | exact Ex]).
        destruct (markers_not_excluded card
                    (hasAnyPhrase (normalizeText (getTitleTextFromCard currentHost card))
                       (normalizePhrases (includePhrases rules)))) as [H1 H2].
        rewrite H1, H2.
        destruct (hasAnyPhrase _ (normalizePhrases (includePhrases rules))); auto. }
  split; [|exact Hcases].
  intros [[v Hv] [w Hw]].
  destruct Hcases as [[_ H] | [[H _] | [H _]]]; congruence.
Qed.

End WithHost.

End CardFacts.

(** ** Bid buttons *)
Module BidFacts.
Import JsString Dom Content JsStringFacts.

Lemma hasAttribute_setAttribute (el : Element) (name value : string) :
  hasAttribute (setAttribute el name value) name = true.
Proof.
  unfold hasAttribute, setAttribute. simpl. rewrite lookup_insert_eq.
  apply bool_decide_eq_true_2. eauto.
Qed.

Lemma textContent_setAttribute (el : Element) (name value : string) :
  textContent (setAttribute el name value) = textContent el.
Proof. destruct el. reflexivity. Qed.

Lemma textContent_setTextContent (el : Element) (v : string) :
  textContent (setTextContent el v) = v.
Proof.
  destruct v as [|c v]; [reflexivity|].
  cbn. rewrite append_nil_r. reflexivity.
Qed.

Section WithHost.
Context {host_env : HostEnv}.

Lemma enhanceBidButton_skip (button : Element) :
  hasAttribute button ENHANCED_ATTR = true -> enhanceBidButton button = button.
Proof. intros H. unfold enhanceBidButton. rewrite H. reflexivity. Qed.

Lemma enhanceBidButton_not_a_number (button : Element) :
  PrimFloat.is_nan
    (parseFloat (from_option id "null" (getAttribute button "data-bid"))) = true ->
  enhanceBidButton button = button.
Proof.
  intros H. unfold enhanceBidButton. rewrite H.
  destruct (hasAttribute button ENHANCED_ATTR); reflexivity.
Qed.

Lemma enhanceBidButton_fresh (button : Element) :
  hasAttribute button ENHANCED_ATTR = false ->
  PrimFloat.is_nan
    (parseFloat (from_option id "null" (getAttribute button "data-bid"))) = false ->
  enhanceBidButton button =
  setAttribute
    (setTextContent button
       (trim (textContent button) +:+ " ($" +:+
        toFixed
          (calculateTrueBidTotal
             (parseFloat (from_option id "null" (getAttribute button "data-bid")))) 2 +:+
        " total)"))
    ENHANCED_ATTR "1".
Proof. intros H1 H2. unfold enhanceBidButton. rewrite H1, H2. reflexivity. Qed.

Lemma enhanceBidButton_idempotent (button : Element) :
  enhanceBidButton (enhanceBidButton button) = enhanceBidButton button.
Proof.
  destruct (hasAttribute button ENHANCED_ATTR) eqn:H1.
  - rewrite (enhanceBidButton_skip button H1). apply enhanceBidButton_skip, H1.
  - destruct (PrimFloat.is_nan
                (parseFloat (from_option id "null" (getAttribute button "data-bid"))))
      eqn:H2.
    + rewrite (enhanceBidButton_not_a_number button H2).
      apply enhanceBidButton_not_a_number, H2.
    + rewrite (enhanceBidButton_fresh button H1 H2).
      apply enhanceBidButton_skip, hasAttribute_setAttribute.
Qed.

End WithHost.

End BidFacts.

(** ** The mutation observer *)
Module ObserverFacts.
Import JsString Dom Content JsStringFacts.

Section WithHost.
Context {host_env : HostEnv}.

Lemma anyAdded_true (mutations : list MutationRecord) :
  anyAdded mutations = true <-> Exists (fun m => addedNodes m <> []) mutations.
Proof.
  induction mutations as [|m rest IH]; cbn [anyAdded].
  - split; [discriminate | intros H; inversion H].
  - destruct (addedNodes m) as [|n ns] eqn:E; cbn [length Nat.eqb negb].
    + rewrite IH. split.
      * intros H. apply Exists_cons_tl, H.
      * intros H. inversion H as [? ? Hm | ? ? Hr]; subst; [congruence | exact Hr].
    + split; [|reflexivity]. intros _. apply Exists_cons_hd. rewrite E. discriminate.
Qed.

Lemma anyAdded_false (mutations : list MutationRecord) :
  anyAdded mutations = false <-> Forall (fun m => addedNodes m = []) mutations.
Proof.
  induction mutations as [|m rest IH]; cbn [anyAdded].
  - split; [intros _; constructor | reflexivity].
  - destruct (addedNodes m) as [|n ns] eqn:E; cbn [length Nat.eqb negb].
    + rewrite IH. split.
      * intros H. constructor; assumption.
      * intros H. inversion H; subst; assumption.
    + split; [discriminate|]. intros H. inversion H; subst. congruence.
Qed.

Lemma scanCount_log (st : State) (msg : string) (extra : LogExtra) :
  scanCount (log msg extra st) =
  scanCount st + (if isScanEntry {| logMessage := "[PhraseFilter] " +:+ msg;
                                     logExtra := extra |} then 1 else 0).
Proof.
  unfold scanCount, log. cbn [console].
  rewrite List.filter_app, length_app. cbn [List.filter].
  destruct (isScanEntry _); reflexivity.
Qed.

(** A scan that runs to its end leaves exactly one more scan entry. *)
Lemma applyRulesToPage_scanCount (rules : SiteRules) (st st' : State) :
  applyRulesToPage rules st = Some st' -> scanCount st' = S (scanCount st).
Proof.
  unfold applyRulesToPage.
  destruct (injectHighlightCssOnce (document st)) as [doc|]; [|discriminate].
  intros E. injection E as <-. rewrite scanCount_log. cbn.
  unfold scanCount. cbn [console setDocument]. lia.
Qed.

(** A scan runs to its end on a document that has a head. *)
Lemma injectHighlightCssOnce_total (root : Element) :
  is_Some (headIndex root) -> is_Some (injectHighlightCssOnce root).
Proof.
  intros [i Hi]. unfold injectHighlightCssOnce.
  destruct (hasElementById _ root); [eauto|]. rewrite Hi. eauto.
Qed.

Lemma applyRulesToPage_total (rules : SiteRules) (st : State) :
  is_Some (headIndex (document st)) -> is_Some (applyRulesToPage rules st).
Proof.
  intros H. apply injectHighlightCssOnce_total in H as [doc Hdoc].
  unfold applyRulesToPage. rewrite Hdoc. eauto.
Qed.

Lemma observerCallback_added (rules : SiteRules) (mutations : list MutationRecord)
    (st : State) :
  anyAdded mutations = true ->
  observerCallback rules mutations st = applyRulesToPage rules st.
Proof. intros H. unfold observerCallback. rewrite H. reflexivity. Qed.

Lemma observerCallback_nothing_added (rules : SiteRules)
    (mutations : list MutationRecord) (st : State) :
  anyAdded mutations = false ->
  observerCallback rules mutations st = Some st.
Proof. intros H. unfold observerCallback. rewrite H. reflexivity. Qed.

(** C8.  A batch delivered to the installed observer triggers exactly one
    re-scan when some record of the batch added a node: the page is left as
    one [applyRulesToPage] with the observer's rules leaves it, one scan
    entry more in the log.  A batch in which no record added a node triggers
    none: nothing changes. *)
Theorem observer_rescans_once_iff_a_node_was_added
    (o : Observer) (mutations : list MutationRecord) (st : State) :
  observerHandle st = Some o ->
  (Exists (fun m => addedNodes m <> []) mutations ->
     deliverMutations mutations st = applyRulesToPage (observerRules o) st /\
     (forall st', deliverMutations mutations st = Some st' ->
                  scanCount st' = S (scanCount st)) /\
     (is_Some (headIndex (document st)) ->
      is_Some (deliverMutations mutations st))) /\
  (Forall (fun m => addedNodes m = []) mutations ->
     deliverMutations mutations st = Some st).
Proof.
  intros Ho. unfold deliverMutations. rewrite Ho. split.
  - intros H. apply anyAdded_true in H.
    rewrite (observerCallback_added _ _ _ H).
    split; [reflexivity|]. split.
    + intros st'. apply applyRulesToPage_scanCount.
    + apply applyRulesToPage_total.
  - intros H. apply anyAdded_false in H.
    apply observerCallback_nothing_added, H.
Qed.

End WithHost.

End ObserverFacts.

(** ** The properties on the sample host *)
Module Scenarios.
Import JsString Dom Content JsStringFacts SampleHost.

(** The scenarios of the specification, under the rules
    [{includePhrases: ["dewalt"], excludePhrases: ["broken"]}]. *)
Example scenario_excluded :
  let c := applyRulesToCard "www.bidfta.com"
             (card (Some "DeWalt Drill - Broken case") "DeWalt Drill") rules in
  (getAttribute c HIDDEN_ATTR, getAttribute c HIGHLIGHT_ATTR) = (Some "1", None).
Proof. vm_compute. reflexivity. Qed.

Example scenario_neutral :
  let c := applyRulesToCard "www.bidfta.com" (card None "Milwaukee Drill") rules in
  (getAttribute c HIDDEN_ATTR, getAttribute c HIGHLIGHT_ATTR) = (None, None).
Proof. vm_compute. reflexivity. Qed.

Example scenario_included :
  let c := applyRulesToCard "www.bidfta.com" (card None "Dewalt Impact Driver") rules in
  (getAttribute c HIDDEN_ATTR, getAttribute c HIGHLIGHT_ATTR) = (None, Some "1").
Proof. vm_compute. reflexivity. Qed.

Example scenario_bid_button :
  textContent (enhanceBidButton (bidButton "10" " Bid $10 ")) = "Bid $10 ($13.96 total)".
Proof. vm_compute. reflexivity. Qed.

Example scenario_totals :
  calculateTrueBidTotal 10 = 13.96125%float /\
  toFixed (calculateTrueBidTotal 5) 2 = "6.71" /\
  toFixed (calculateTrueBidTotal 5.01) 2 = "7.54".
Proof. vm_compute. auto. Qed.

Lemma exclude_wins_over_include_witness :
  getAttribute
    (applyRulesToCard "www.bidfta.com"
       (card (Some "DeWalt Drill - Broken case") "DeWalt Drill") rules)
    HIDDEN_ATTR = Some "1" /\
  getAttribute
    (applyRulesToCard "www.bidfta.com"
       (card (Some "DeWalt Drill - Broken case") "DeWalt Drill") rules)
    HIGHLIGHT_ATTR = None.
Proof.
  destruct (CardFacts.exclude_wins_over_include "www.bidfta.com"
              (card (Some "DeWalt Drill - Broken case") "DeWalt Drill") rules)
    as [H1 [H2 _]].
  - exists ["broken"], "broken". split; [reflexivity|]. split; [left; reflexivity|].
    split; [discriminate|]. exists "dewalt drill - ", " case". reflexivity.
  - exists ["dewalt"], "dewalt". split; [reflexivity|]. split; [left; reflexivity|].
    split; [discriminate|]. exists "", " drill - broken case". reflexivity.
  - split; assumption.
Defined.

Lemma setHidden_changes_only_the_marker_witness :
  getAttribute (setHidden (card None "Drill") true) "role" =
  getAttribute (card None "Drill") "role".
Proof.
  destruct (CardFacts.setHidden_changes_only_the_marker (card None "Drill") true)
    as [_ [_ [_ [H _]]]].
  apply (H "role"). discriminate.
Defined.

Lemma empty_title_is_neutral_witness :
  getAttribute
    (applyRulesToCard "www.bidfta.com" (card (Some "") "")
       {| includePhrases := Some []; excludePhrases := Some ["x"] |})
    HIDDEN_ATTR = None /\
  getAttribute
    (applyRulesToCard "www.bidfta.com" (card (Some "") "")
       {| includePhrases := Some []; excludePhrases := Some ["x"] |})
    HIGHLIGHT_ATTR = None.
Proof.
  apply (CardFacts.empty_title_is_neutral "www.bidfta.com" (card (Some "") "")
           {| includePhrases := Some []; excludePhrases := Some ["x"] |}).
  reflexivity.
Defined.

Lemma getTitleTextFromCard_trimmed_title_first_witness :
  getTitleTextFromCard "www.bidfta.com" (card (Some " Drill ") "Drill press") = "Drill".
Proof.
  destruct (CardFacts.getTitleTextFromCard_trimmed_title_first "www.bidfta.com"
              (card (Some " Drill ") "Drill press")
              (titled "h4" (Some " Drill ") "Drill press"))
    as [H _].
  - reflexivity.
  - apply (H " Drill "); [reflexivity | discriminate].
Defined.

(** C4 as stated fails: with the title attribute " Drill " the extracted text
    is "Drill", not the attribute. *)
Lemma raw_title_is_the_attribute_counterexample :
  ~ (forall (host_env : HostEnv) (currentHost : string) (card titleEl : Element)
            (t : string),
        findTitleElementForHost currentHost card = Some titleEl ->
        getAttribute titleEl "title" = Some t -> t <> "" ->
        getTitleTextFromCard currentHost card = t).
Proof.
  intros H.
  specialize (H sampleHost "www.bidfta.com" (card (Some " Drill ") "Drill press")
                (titled "h4" (Some " Drill ") "Drill press") " Drill ").
  assert (E : getTitleTextFromCard "www.bidfta.com"
                (card (Some " Drill ") "Drill press") = " Drill ").
  { apply H; [reflexivity | reflexivity | discriminate]. }
  vm_compute in E. discriminate.
Qed.

Lemma observer_rescans_once_iff_a_node_was_added_witness :
  (forall st', deliverMutations batchAdding state = Some st' ->
               scanCount st' = S (scanCount state)) /\
  is_Some (deliverMutations batchAdding state) /\
  deliverMutations batchRemoving state = Some state.
Proof.
  destruct (ObserverFacts.observer_rescans_once_iff_a_node_was_added
              (startObserver rules) batchAdding state eq_refl) as [Hadd _].
  destruct (ObserverFacts.observer_rescans_once_iff_a_node_was_added
              (startObserver rules) batchRemoving state eq_refl) as [_ Hrem].
  destruct Hadd as [_ [Hcount Htotal]].
  - apply Exists_cons_hd. discriminate.
  - split; [exact Hcount|]. split.
    + apply Htotal. exists 0. reflexivity.
    + apply Hrem. repeat constructor.
Defined.

End Scenarios.

(** ** Normalization of titles and phrases *)
Module NormalizeFacts.
Import JsString JsStringSpec Dom Content JsStringFacts PhraseFacts.

Lemma toLowerCaseChar_idem (c : ascii) :
  toLowerCaseChar (toLowerCaseChar c) = toLowerCaseChar c.
Proof. destruct c as [[] [] [] [] [] [] [] []]; vm_compute; reflexivity. Qed.

Lemma isWhiteSpace_toLowerCaseChar (c : ascii) :
  isWhiteSpace (toLowerCaseChar c) = isWhiteSpace c.
Proof. destruct c as [[] [] [] [] [] [] [] []]; vm_compute; reflexivity. Qed.

Lemma toLowerCase_idem (s : string) : toLowerCase (toLowerCase s) = toLowerCase s.
Proof.
  induction s as [|c s IH]; [reflexivity|].
  cbn [toLowerCase]. rewrite toLowerCaseChar_idem, IH. reflexivity.
Qed.

Lemma toLowerCase_nil (s : string) : toLowerCase s = "" <-> s = "".
Proof. destruct s; cbn [toLowerCase]; split; congruence. Qed.

Lemma trimStart_toLowerCase (s : string) :
  trimStart (toLowerCase s) = toLowerCase (trimStart s).
Proof.
  induction s as [|c s IH]; [reflexivity|].
  cbn [toLowerCase trimStart]. rewrite isWhiteSpace_toLowerCaseChar.
  destruct (isWhiteSpace c); [exact IH | reflexivity].
Qed.

Lemma trimEnd_toLowerCase (s : string) :
  trimEnd (toLowerCase s) = toLowerCase (trimEnd s).
Proof.
  induction s as [|c s IH]; [reflexivity|].
  cbn [toLowerCase trimEnd]. rewrite IH, isWhiteSpace_toLowerCaseChar.
  destruct (trimEnd s) as [|d r]; cbn [toLowerCase].
  - destruct (isWhiteSpace c); reflexivity.
  - reflexivity.
Qed.

Lemma trim_toLowerCase (s : string) : trim (toLowerCase s) = toLowerCase (trim s).
Proof. unfold trim. rewrite trimStart_toLowerCase, trimEnd_toLowerCase. reflexivity. Qed.

(** What [trimStart] returns does not start with white space. *)
Lemma trimStart_first (s : string) (c : ascii) :
  first (trimStart s) = Some c -> isWhiteSpace c = false.
Proof.
  induction s as [|d s IH]; cbn [trimStart]; [discriminate|].
  destruct (isWhiteSpace d) eqn:E; [exact IH|].
  cbn [first]. intros H. injection H as <-. exact E.
Qed.

Lemma trimStart_fixed (s : string) :
  (forall c, first s = Some c -> isWhiteSpace c = false) -> trimStart s = s.
Proof.
  destruct s as [|c s]; [reflexivity|]. intros H. cbn [trimStart].
  rewrite (H c) by reflexivity. reflexivity.
Qed.

Lemma trimStart_idem (s : string) : trimStart (trimStart s) = trimStart s.
Proof. apply trimStart_fixed, trimStart_first. Qed.

Lemma trimEnd_idem (s : string) : trimEnd (trimEnd s) = trimEnd s.
Proof.
  induction s as [|c s IH]; [reflexivity|].
  cbn [trimEnd]. destruct (trimEnd s) as [|d r] eqn:E.
  - destruct (isWhiteSpace c) eqn:Ec; [reflexivity|].
    cbn [trimEnd]. rewrite Ec. reflexivity.
  - cbn [trimEnd] in *. rewrite IH. reflexivity.
Qed.

Lemma trimStart_trimEnd (s : string) : trimStart (trimEnd s) = trimEnd (trimStart s).
Proof.
  induction s as [|c s IH]; [reflexivity|].
  cbn [trimEnd trimStart]. destruct (isWhiteSpace c) eqn:Ec.
  - rewrite <- IH. destruct (trimEnd s) as [|d r]; [reflexivity|].
    cbn [trimStart]. rewrite Ec. reflexivity.
  - cbn [trimEnd]. destruct (trimEnd s) as [|d r];
      cbn [trimStart]; rewrite Ec; reflexivity.
Qed.

Lemma trim_idem (s : string) : trim (trim s) = trim s.
Proof.
  unfold trim. rewrite trimStart_trimEnd, trimStart_idem, trimEnd_idem. reflexivity.
Qed.

Lemma normalizeText_unfold (s : string) : normalizeText s = toLowerCase (trim s).
Proof. unfold normalizeText. rewrite or_else_some. reflexivity. Qed.

Lemma blank_nil : blank "".
Proof. intros c []. Qed.

Lemma blank_cons (c : ascii) (s : string) :
  blank (String c s) <-> isWhiteSpace c = true /\ blank s.
Proof.
  unfold blank. cbn [String.list_ascii_of_string]. split.
  - intros H. split; [apply H; left; reflexivity|].
    intros d Hd. apply H. right. exact Hd.
  - intros [Hc Hs] d [<- | Hd]; [exact Hc | apply Hs, Hd].
Qed.

Lemma trimStart_nil (s : string) : trimStart s = "" <-> blank s.
Proof.
  induction s as [|c s IH]; cbn [trimStart].
  - split; [intros _; apply blank_nil | reflexivity].
  - rewrite blank_cons. destruct (isWhiteSpace c).
    + rewrite IH. tauto.
    + split; [discriminate | intros [H _]; discriminate].
Qed.

Lemma trimEnd_nil (s : string) : trimEnd s = "" <-> blank s.
Proof.
  induction s as [|c s IH]; cbn [trimEnd].
  - split; [intros _; apply blank_nil | reflexivity].
  - rewrite blank_cons. destruct (trimEnd s) as [|d r].
    + destruct (isWhiteSpace c).
      * split; [intros _; split; [reflexivity | apply IH; reflexivity] | reflexivity].
      * split; [discriminate | intros [H _]; discriminate].
    + split; [discriminate|]. intros [_ H]. apply IH in H. discriminate.
Qed.

Lemma trim_nil (s : string) : trim s = "" <-> blank s.
Proof.
  unfold trim. rewrite trimEnd_nil. split.
  - intros H. apply trimStart_nil.
    destruct (trimStart s) as [|c r] eqn:E; [reflexivity|].
    apply blank_cons in H as [Hc _].
    rewrite (trimStart_first s c) in Hc by (rewrite E; reflexivity). discriminate.
  - intros H. apply trimStart_nil in H. rewrite H. apply blank_nil.
Qed.

Lemma normalizeText_nil (s : string) : normalizeText s = "" <-> blank s.
Proof. rewrite normalizeText_unfold, toLowerCase_nil. apply trim_nil. Qed.

(** What [trimEnd] returns does not end with white space. *)
Lemma trimEnd_last (s : string) (c : ascii) :
  last (trimEnd s) = Some c -> isWhiteSpace c = false.
Proof.
  induction s as [|d s IH]; cbn [trimEnd]; [discriminate|].
  destruct (trimEnd s) as [|e r] eqn:E.
  - destruct (isWhiteSpace d) eqn:Ed; cbn [last]; [discriminate|].
    intros H. injection H as <-. exact Ed.
  - intros H. apply IH. exact H.
Qed.

Lemma trimEnd_first (s : string) (c : ascii) :
  (forall d, first s = Some d -> isWhiteSpace d = false) ->
  first (trimEnd s) = Some c -> isWhiteSpace c = false.
Proof.
  destruct s as [|d s]; [discriminate|]. intros H. cbn [trimEnd].
  destruct (trimEnd s); [destruct (isWhiteSpace d) eqn:Ed|]; cbn [first];
    try discriminate; intros E; injection E as <-; apply H; reflexivity.
Qed.

Lemma last_toLowerCase (s : string) :
  last (toLowerCase s) = option_map toLowerCaseChar (last s).
Proof.
  induction s as [|c s IH]; [reflexivity|].
  cbn [toLowerCase]. destruct s as [|d s]; [reflexivity|].
  exact IH.
Qed.

Lemma first_toLowerCase (s : string) :
  first (toLowerCase s) = option_map toLowerCaseChar (first s).
Proof. destruct s; reflexivity. Qed.

End NormalizeFacts.

(** ** Further properties of normalization and matching *)
Module NormalizeProps.
Import JsString JsStringSpec Dom Content JsStringFacts PhraseFacts NormalizeFacts.

Lemma toLowerCase_trim_normalized (s : string) :
  toLowerCase (trim (toLowerCase (trim s))) = toLowerCase (trim s).
Proof. rewrite trim_toLowerCase, trim_idem, toLowerCase_idem. reflexivity. Qed.

Lemma normalizeText_normalized (s : string) :
  normalizeText (normalizeText s) = normalizeText s.
Proof. rewrite !normalizeText_unfold. apply toLowerCase_trim_normalized. Qed.

(** X1.  Normalizing a string twice gives what normalizing it once gives. *)
Theorem normalizeText_idempotent (s : string) :
  normalizeText (normalizeText s) = normalizeText s.
Proof.
  rewrite !normalizeText_unfold.
  rewrite trim_toLowerCase, trim_idem, toLowerCase_idem. reflexivity.
Qed.

(** X2.  The normalized text is empty exactly for a string of white space
    only; it neither starts nor ends with white space, and lower-casing it
    again changes nothing. *)
Theorem normalizeText_trimmed_and_lowered (s : string) :
  (normalizeText s = "" <-> blank s) /\
  (forall c, first (normalizeText s) = Some c -> isWhiteSpace c = false) /\
  (forall c, last (normalizeText s) = Some c -> isWhiteSpace c = false) /\
  toLowerCase (normalizeText s) = normalizeText s.
Proof.
  split; [apply normalizeText_nil|]. rewrite normalizeText_unfold.
  split; [|split].
  - intros c. rewrite first_toLowerCase.
    destruct (first (trim s)) as [d|] eqn:E; [|discriminate].
    cbn [option_map]. intros H. injection H as <-.
    rewrite isWhiteSpace_toLowerCaseChar.
    apply (trimEnd_first (trimStart s) d); [apply trimStart_first | exact E].
  - intros c. rewrite last_toLowerCase.
    destruct (last (trim s)) as [d|] eqn:E; [|discriminate].
    cbn [option_map]. intros H. injection H as <-.
    rewrite isWhiteSpace_toLowerCaseChar.
    apply (trimEnd_last (trimStart s) d). exact E.
  - apply toLowerCase_idem.
Qed.

Lemma normalizePhrases_fixed (l : list string) :
  (forall q, In q l -> normalizeText q = q /\ q <> "") ->
  normalizePhrases (Some l) = l.
Proof.
  unfold normalizePhrases. induction l as [|q l IH]; intros H; [reflexivity|].
  cbn [List.map List.filter].
  destruct (H q) as [Hq Hne]; [left; reflexivity|].
  rewrite Hq. apply truthy_true in Hne. rewrite Hne. f_equal.
  apply IH. intros q' Hin. apply H. right. exact Hin.
Qed.

(** X3.  [normalizePhrases] keeps, in order, the normalized forms of the
    phrases that are not blank: no element of the result is empty, each is
    already normalized, the result is no longer than the input, and a value
    that is not an array gives the empty list. *)
Theorem normalizePhrases_keeps_nonblank_normalized (l : list string) :
  normalizePhrases None = [] /\
  (forall q, In q (normalizePhrases (Some l)) <->
             exists p, In p l /\ ~ blank p /\ q = normalizeText p) /\
  (forall q, In q (normalizePhrases (Some l)) -> q <> "" /\ normalizeText q = q) /\
  length (normalizePhrases (Some l)) <= length l.
Proof.
  split; [reflexivity|]. split; [|split].
  - intros q. rewrite normalizePhrases_In. split.
    + intros [l' [p [E [Hin [-> Hne]]]]]. injection E as <-.
      exists p. split; [exact Hin|]. split; [|reflexivity].
      rewrite <- normalizeText_nil. exact Hne.
    + intros [p [Hin [Hb ->]]]. exists l, p.
      rewrite normalizeText_nil. auto.
  - intros q Hin. apply normalizePhrases_In in Hin as [l' [p [_ [_ [-> Hne]]]]].
    split; [exact Hne | apply normalizeText_normalized].
  - unfold normalizePhrases.
    etransitivity; [apply List.filter_length_le|]. rewrite length_map. reflexivity.
Qed.

(** X4.  Normalizing an already normalized phrase list changes nothing. *)
Theorem normalizePhrases_idempotent (arr : option (list string)) :
  normalizePhrases (Some (normalizePhrases arr)) = normalizePhrases arr.
Proof.
  apply normalizePhrases_fixed. intros q Hin.
  apply normalizePhrases_In in Hin as [l [p [_ [_ [-> Hne]]]]].
  split; [apply normalizeText_normalized | exact Hne].
Qed.

Lemma hasAnyPhrase_existsb (h : string) (p : list string) :
  hasAnyPhrase h p = truthy h && existsb (fun q => truthy q && includes h q) p.
Proof.
  unfold hasAnyPhrase. destruct (truthy h); [|reflexivity].
  destruct p; reflexivity.
Qed.

(** X5.  Matching against two lists put together is matching against one or
    the other; so the order of the phrases does not matter. *)
Theorem hasAnyPhrase_app (h : string) (p1 p2 : list string) :
  hasAnyPhrase h (p1 ++ p2) = hasAnyPhrase h p1 || hasAnyPhrase h p2 /\
  hasAnyPhrase h (p1 ++ p2) = hasAnyPhrase h (p2 ++ p1).
Proof.
  rewrite !hasAnyPhrase_existsb, !existsb_app.
  destruct (truthy h); cbn [andb]; [|auto].
  split; [reflexivity | apply orb_comm].
Qed.

End NormalizeProps.

(** ** Further properties of the selector lookup *)
Module SelectorProps.
Import JsString Dom Content JsStringFacts SelectorFacts.

(** X6.  The first entry whose domain matches the host decides both lookups:
    the title lookup returns its trimmed selector, the item lookup returns it
    when it is not blank and otherwise gives up, without trying the entries
    after it. *)
Theorem selector_lookup_first_match_wins
    (before after : list (string * string)) (domain selector host : string) :
  (forall d s, In (d, s) before -> hostMatchesDomain host d = false) ->
  hostMatchesDomain host domain = true ->
  getItemSelectorForHost_loop (before ++ (domain, selector) :: after) host =
    (if truthy (trim selector) then Some (trim selector) else None) /\
  getTitleSelectorForHost_loop (before ++ (domain, selector) :: after) host =
    trim selector.
Proof.
  intros Hb Hd. induction before as [|[d s] before IH].
  - cbn [app getItemSelectorForHost_loop getTitleSelectorForHost_loop].
    rewrite Hd. cbn [negb]. rewrite or_else_some. split; reflexivity.
  - cbn [app getItemSelectorForHost_loop getTitleSelectorForHost_loop].
    rewrite (Hb d s) by (left; reflexivity). cbn [negb].
    apply IH. intros d' s' Hin. apply (Hb d' s'). right. exact Hin.
Qed.

Lemma selector_lookup_first_match_wins_witness :
  getItemSelectorForHost_loop
    ([("bidfta.com", "div.a")] ++ ("govdeals.com", "  ") :: [("deals.com", "div.c")])
    "www.govdeals.com" = None /\
  getTitleSelectorForHost_loop
    ([("bidfta.com", "div.a")] ++ ("govdeals.com", "  ") :: [("deals.com", "div.c")])
    "www.govdeals.com" = "".
Proof.
  apply (selector_lookup_first_match_wins
           [("bidfta.com", "div.a")] [("deals.com", "div.c")]
           "govdeals.com" "  " "www.govdeals.com").
  - intros d s [E | []]. injection E as <- _. reflexivity.
  - reflexivity.
Defined.

(** X7.  The two tables support the same hosts: a host gets an item selector
    exactly when it gets a non-empty title selector, and that is exactly
    when it matches "bidfta.com" or "govdeals.com". *)
Theorem supported_hosts (host : string) :
  (is_Some (getItemSelectorForHost host) <->
   hostMatchesDomain host "bidfta.com" = true \/
   hostMatchesDomain host "govdeals.com" = true) /\
  (getTitleSelectorForHost host <> "" <->
   hostMatchesDomain host "bidfta.com" = true \/
   hostMatchesDomain host "govdeals.com" = true).
Proof.
  unfold getItemSelectorForHost, getTitleSelectorForHost,
    ITEM_SELECTOR_BY_DOMAIN, TITLE_SELECTOR_BY_DOMAIN.
  cbn [getItemSelectorForHost_loop getTitleSelectorForHost_loop].
  destruct (hostMatchesDomain host "bidfta.com"); cbn [negb].
  - split; split.
    + intros _. left. reflexivity.
    + intros _. vm_compute. eauto.
    + intros _. left. reflexivity.
    + intros _. vm_compute. discriminate.
  - destruct (hostMatchesDomain host "govdeals.com"); cbn [negb].
    + split; split.
      * intros _. right. reflexivity.
      * intros _. vm_compute. eauto.
      * intros _. right. reflexivity.
      * intros _. vm_compute. discriminate.
    + split; split.
      * intros [x Hx]. discriminate.
      * intros [H | H]; discriminate.
      * intros H. exfalso. apply H. reflexivity.
      * intros [H | H]; discriminate.
Qed.

End SelectorProps.

(** ** Further properties of cards and bid buttons *)
Module CardProps.
Import JsString JsStringSpec Dom Content JsStringFacts PhraseFacts CardFacts BidFacts.

Lemma Element_eq (a b : Element) :
  tagName a = tagName b -> attributes a = attributes b ->
  styleDisplay a = styleDisplay b -> childNodes a = childNodes b -> a = b.
Proof. destruct a, b. cbn. intros -> -> -> ->. reflexivity. Qed.

Ltac marker_ops :=
  apply Element_eq; try reflexivity;
  unfold setHidden, setHighlighted, setAttribute, removeAttribute; cbn;
  apply map_eq; intros k;
  repeat first [rewrite lookup_insert | rewrite lookup_delete];
  repeat case_decide; subst; congruence.

Lemma neutral_again (card : Element) (b : bool) :
  setHighlighted (setHidden (setHighlighted (setHidden card false) b) false) b =
  setHighlighted (setHidden card false) b.
Proof. destruct b; marker_ops. Qed.

Lemma excluded_again (card : Element) :
  setHidden (setHighlighted (setHidden (setHighlighted card false) true) false) true =
  setHidden (setHighlighted card false) true.
Proof. marker_ops. Qed.

Lemma textContent_childNodes (a b : Element) :
  childNodes a = childNodes b -> textContent a = textContent b.
Proof. destruct a, b. cbn. intros ->. reflexivity. Qed.

Section WithHost.
Context {host_env : HostEnv}.

(** The result of [applyRulesToCard] is the card with its two markers
    rewritten, in one of two ways. *)
Lemma applyRulesToCard_form (currentHost : string) (card : Element) (rules : SiteRules) :
  applyRulesToCard currentHost card rules = setHidden (setHighlighted card false) true \/
  exists b, applyRulesToCard currentHost card rules =
            setHighlighted (setHidden card false) b.
Proof.
  destruct (normalizeText (getTitleTextFromCard currentHost card)) as [|c t] eqn:Et.
  - right. exists false. apply applyRulesToCard_empty_title, Et.
  - destruct (hasAnyPhrase (String c t) (normalizePhrases (excludePhrases rules))) eqn:Ex.
    + left. apply applyRulesToCard_excluded. rewrite Et. exact Ex.
    + right. eexists. apply applyRulesToCard_not_excluded; rewrite Et;
        [discriminate | exact Ex].
Qed.

(** X8.  [applyRulesToCard] rewrites the two marker attributes and nothing
    else: the tag, the inline display style, the children (hence the text)
    and every other attribute of the card are as before. *)
Theorem applyRulesToCard_touches_only_the_markers
    (currentHost : string) (card : Element) (rules : SiteRules) :
  tagName (applyRulesToCard currentHost card rules) = tagName card /\
  styleDisplay (applyRulesToCard currentHost card rules) = styleDisplay card /\
  childNodes (applyRulesToCard currentHost card rules) = childNodes card /\
  textContent (applyRulesToCard currentHost card rules) = textContent card /\
  (forall name, name <> HIDDEN_ATTR -> name <> HIGHLIGHT_ATTR ->
     getAttribute (applyRulesToCard currentHost card rules) name =
     getAttribute card name).
Proof.
  assert (H : tagName (applyRulesToCard currentHost card rules) = tagName card /\
              styleDisplay (applyRulesToCard currentHost card rules) = styleDisplay card /\
              childNodes (applyRulesToCard currentHost card rules) = childNodes card /\
              (forall name, name <> HIDDEN_ATTR -> name <> HIGHLIGHT_ATTR ->
                 getAttribute (applyRulesToCard currentHost card rules) name =
                 getAttribute card name)).
  { destruct (applyRulesToCard_form currentHost card rules) as [-> | [b ->]].
    - repeat split. intros name H1 H2. unfold setHidden, setHighlighted.
      rewrite getAttribute_setAttribute_ne, getAttribute_removeAttribute_ne
        by congruence. reflexivity.
    - destruct b; (repeat split); intros name H1 H2; unfold setHidden, setHighlighted.
      + rewrite getAttribute_setAttribute_ne, getAttribute_removeAttribute_ne
          by congruence. reflexivity.
      + rewrite !getAttribute_removeAttribute_ne by congruence. reflexivity. }
  destruct H as [H1 [H2 [H3 H4]]].
  repeat (split; [assumption|]). split; [|exact H4].
  apply textContent_childNodes, H3.
Qed.

Lemma phraseMatches_empty_title (phrases : option (list string)) :
  ~ phraseMatches "" phrases.
Proof. rewrite <- hasAnyPhrase_normalized. cbn. discriminate. Qed.

(** X9.  What [applyRulesToCard] decides: the card ends with the exclusion
    marker exactly when its normalized title matches an exclude phrase, and
    with the highlight marker exactly when it matches an include phrase and
    no exclude phrase; a marker that is not set to "1" is absent. *)
Theorem applyRulesToCard_decides
    (currentHost : string) (card : Element) (rules : SiteRules) :
  (getAttribute (applyRulesToCard currentHost card rules) HIDDEN_ATTR = Some "1" <->
   phraseMatches (normalizeText (getTitleTextFromCard currentHost card))
     (excludePhrases rules)) /\
  (getAttribute (applyRulesToCard currentHost card rules) HIGHLIGHT_ATTR = Some "1" <->
   phraseMatches (normalizeText (getTitleTextFromCard currentHost card))
     (includePhrases rules) /\
   ~ phraseMatches (normalizeText (getTitleTextFromCard currentHost card))
       (excludePhrases rules)) /\
  (getAttribute (applyRulesToCard currentHost card rules) HIDDEN_ATTR = None \/
   getAttribute (applyRulesToCard currentHost card rules) HIDDEN_ATTR = Some "1") /\
  (getAttribute (applyRulesToCard currentHost card rules) HIGHLIGHT_ATTR = None \/
   getAttribute (applyRulesToCard currentHost card rules) HIGHLIGHT_ATTR = Some "1").
Proof.
  destruct (normalizeText (getTitleTextFromCard currentHost card)) as [|c t] eqn:Et.
  - rewrite (applyRulesToCard_empty_title _ _ _ Et).
    destruct (markers_not_excluded card false) as [-> ->].
    pose proof (phraseMatches_empty_title (excludePhrases rules)).
    pose proof (phraseMatches_empty_title (includePhrases rules)).
    repeat split; try (intros; congruence); try tauto; auto.
  - rewrite <- !hasAnyPhrase_normalized.
    destruct (hasAnyPhrase (String c t) (normalizePhrases (excludePhrases rules))) eqn:Ex.
    + rewrite applyRulesToCard_excluded by (rewrite Et; exact Ex).
      destruct (markers_excluded card) as [-> ->].
      repeat split; try (intros; congruence); try tauto; auto;
        try (intros [_ H]; congruence).
    + rewrite applyRulesToCard_not_excluded
        by (rewrite Et; first [discriminate | exact Ex]).
      destruct (markers_not_excluded card
                  (hasAnyPhrase (normalizeText (getTitleTextFromCard currentHost card))
                     (normalizePhrases (includePhrases rules)))) as [-> ->].
      rewrite Et.
      destruct (hasAnyPhrase (String c t) (normalizePhrases (includePhrases rules)));
        repeat split; try (intros; congruence); try tauto; auto;
        try (intros [H _]; congruence).
Qed.

(** X10.  Applying the rules to a card a second time changes nothing,
    provided the markers do not change the title the selector engine
    finds. *)
Theorem applyRulesToCard_idempotent
    (currentHost : string) (card : Element) (rules : SiteRules) :
  getTitleTextFromCard currentHost (applyRulesToCard currentHost card rules) =
  getTitleTextFromCard currentHost card ->
  applyRulesToCard currentHost (applyRulesToCard currentHost card rules) rules =
  applyRulesToCard currentHost card rules.
Proof.
  intros Htitle.
  destruct (normalizeText (getTitleTextFromCard currentHost card)) as [|c t] eqn:Et.
  - rewrite (applyRulesToCard_empty_title _ (applyRulesToCard _ _ _))
      by (rewrite Htitle; exact Et).
    rewrite (applyRulesToCard_empty_title _ _ _ Et). apply neutral_again.
  - destruct (hasAnyPhrase (String c t) (normalizePhrases (excludePhrases rules))) eqn:Ex.
    + rewrite (applyRulesToCard_excluded _ (applyRulesToCard _ _ _))
        by (rewrite Htitle, Et; exact Ex).
      rewrite applyRulesToCard_excluded by (rewrite Et; exact Ex).
      apply excluded_again.
    + rewrite (applyRulesToCard_not_excluded _ (applyRulesToCard _ _ _))
        by (rewrite Htitle, Et; first [discriminate | exact Ex]).
      rewrite Htitle.
      rewrite applyRulesToCard_not_excluded
        by (rewrite Et; first [discriminate | exact Ex]).
      apply neutral_again.
Qed.

(** X11.  On a host that matches neither domain no title is found, so
    every card ends Neutral whatever the rules are. *)
Theorem unsupported_host_leaves_cards_neutral
    (currentHost : string) (card : Element) (rules : SiteRules) :
  hostMatchesDomain currentHost "bidfta.com" = false ->
  hostMatchesDomain currentHost "govdeals.com" = false ->
  getTitleTextFromCard currentHost card = "" /\
  getAttribute (applyRulesToCard currentHost card rules) HIDDEN_ATTR = None /\
  getAttribute (applyRulesToCard currentHost card rules) HIGHLIGHT_ATTR = None.
Proof.
  intros Hb Hg.
  assert (Et : getTitleTextFromCard currentHost card = "").
  { unfold getTitleTextFromCard, findTitleElementForHost, getTitleSelectorForHost,
      TITLE_SELECTOR_BY_DOMAIN.
    cbn [getTitleSelectorForHost_loop]. rewrite Hb, Hg. reflexivity. }
  split; [exact Et|].
  rewrite applyRulesToCard_empty_title by (rewrite Et; reflexivity).
  apply (markers_not_excluded card false).
Qed.

(** X12.  [enhanceBidButton] changes the text and the enhanced marker only:
    tag, inline display style and every other attribute (the bid itself
    too) are as before; a button whose bid does not parse to a number is
    left exactly as it was. *)
Theorem enhanceBidButton_touches_text_and_marker_only (button : Element) :
  tagName (enhanceBidButton button) = tagName button /\
  styleDisplay (enhanceBidButton button) = styleDisplay button /\
  (forall name, name <> ENHANCED_ATTR ->
     getAttribute (enhanceBidButton button) name = getAttribute button name) /\
  (PrimFloat.is_nan
     (parseFloat (from_option id "null" (getAttribute button "data-bid"))) = true ->
   enhanceBidButton button = button).
Proof.
  split; [|split; [|split]]; try apply enhanceBidButton_not_a_number;
    unfold enhanceBidButton;
    destruct (hasAttribute button ENHANCED_ATTR); try reflexivity;
    destruct (PrimFloat.is_nan _); try reflexivity.
  intros name H. rewrite getAttribute_setAttribute_ne by congruence. reflexivity.
Qed.

End WithHost.

End CardProps.

(** ** Start-up, rule changes and the observer *)
Module LifecycleProps.
Import JsString JsStringSpec Dom Content Lifecycle LifecycleSpec JsStringFacts ObserverFacts.

Section WithHost.
Context {host_env : HostEnv}.

(** A scan changes the document and the log only. *)
Lemma applyRulesToPage_preserves (rules : SiteRules) (st st' : State) :
  applyRulesToPage rules st = Some st' ->
  currentHost st' = currentHost st /\
  currentRules st' = currentRules st /\
  observerHandle st' = observerHandle st.
Proof.
  unfold applyRulesToPage.
  destruct (injectHighlightCssOnce (document st)) as [doc|]; [|discriminate].
  intros E. injection E as <-. repeat split.
Qed.

Lemma onRulesReady_installs (st st' : State) :
  onRulesReady st = Some st' ->
  currentHost st' = currentHost st /\
  currentRules st' = currentRules st /\
  observerHandle st' = Some (startObserver (currentRules st)) /\
  scanCount st' = S (scanCount st).
Proof.
  unfold onRulesReady. intros H.
  pose proof (applyRulesToPage_preserves _ _ _ H) as [H1 [H2 H3]].
  pose proof (applyRulesToPage_scanCount _ _ _ H) as H4.
  repeat split; assumption.
Qed.

Lemma onRulesReady_total (st : State) :
  is_Some (headIndex (document st)) -> is_Some (onRulesReady st).
Proof. intros H. unfold onRulesReady. apply applyRulesToPage_total. exact H. Qed.

(** A storage change in another area, or one that does not touch the
    rules key, is ignored: the state is left as it is, without a scan. *)
Lemma storage_change_elsewhere_is_ignored
    (changes : gmap string StorageChange) (areaName : string) (st : State) :
  areaName <> "sync" \/ changes !! STORAGE_KEY = None ->
  onStorageChanged changes areaName st = Some st.
Proof.
  intros [H | H]; unfold onStorageChanged.
  - apply String.eqb_neq in H. rewrite H. reflexivity.
  - rewrite H. destruct (negb _); reflexivity.
Qed.

(** X15.  A change of the rules key in the sync area replaces the current
    rules by the new value's entry for the current host (the defaults when
    there is none), installs an observer over those rules and scans the page
    once; the host stays the same. *)
Theorem rules_change_reloads_and_rescans
    (changes : gmap string StorageChange) (changed : StorageChange) (st : State) :
  changes !! STORAGE_KEY = Some changed ->
  is_Some (headIndex (document st)) ->
  exists st',
    onStorageChanged changes "sync" st = Some st' /\
    currentRules st' = loadSiteRules (newValue changed) (currentHost st) /\
    observerHandle st' = Some (startObserver (currentRules st')) /\
    scanCount st' = S (scanCount st) /\
    currentHost st' = currentHost st.
Proof.
  intros Hc Hhead. unfold onStorageChanged. cbn [String.eqb negb]. rewrite Hc.
  change (match newValue changed with
          | Some (RulesByHost m) => m
          | _ => ∅
          end) with (loadRulesByHost (newValue changed)).
  destruct (onRulesReady_total
              (setCurrentRules st
                 (spreadSiteRules (loadRulesByHost (newValue changed) !! currentHost st))))
    as [st' Hst']; [exact Hhead|].
  exists st'. split; [exact Hst'|].
  apply onRulesReady_installs in Hst' as [H1 [H2 [H3 H4]]].
  rewrite H2, H3. repeat split; assumption.
Qed.

(** X16.  Without a host [init] stops after one log entry: no observer, no
    scan, no storage listener, the document untouched; storage changes and
    mutation batches that come later change nothing. *)
Theorem init_without_host_does_nothing
    (locationHost : option string) (stored : option StoredValue) (doc : Element) :
  safeHostFromLocation locationHost = "" ->
  exists rt,
    init locationHost stored (initialState doc) = Some rt /\
    storageListener rt = false /\
    observerHandle (script rt) = None /\
    document (script rt) = doc /\
    scanCount (script rt) = 0 /\
    length (console (script rt)) = 1 /\
    (forall changes areaName, deliverStorageChange changes areaName rt = Some rt) /\
    (forall mutations, deliverMutations mutations (script rt) = Some (script rt)).
Proof.
  intros H. unfold init. cbn [currentHost setCurrentHost]. rewrite H. cbn [truthy negb].
  eexists. split; [reflexivity|]. cbn. repeat split.
Qed.


End WithHost.

End LifecycleProps.

(** ** The popup and the stored rules *)
Module PopupProps.
Import JsString JsStringSpec Dom Content Lifecycle Popup.
Import JsStringFacts PhraseFacts NormalizeFacts CardFacts.

#[local] Set Warnings "-clear-no-such-hyp".

Lemma uniq_from_In (seen : gset string) (arr : list string) (x : string) :
  In x (uniq_from seen arr) <-> In x arr /\ x ∉ seen.
Proof.
  revert seen. induction arr as [|a arr IH]; intros seen; cbn [uniq_from].
  - cbn. tauto.
  - case_bool_decide as Ha.
    + rewrite IH. cbn. split.
      * intros [H1 H2]. auto.
      * intros [[<- | H1] H2]; [contradiction | auto].
    + cbn. rewrite IH. split.
      * intros [<- | [H1 H2]]; [auto|]. split; [auto | set_solver].
      * intros [[<- | H1] H2]; [auto|].
        destruct (decide (a = x)) as [-> | Hne]; [auto|].
        right. split; [exact H1 | set_solver].
Qed.

Lemma uniq_from_NoDup (seen : gset string) (arr : list string) :
  List.NoDup (uniq_from seen arr).
Proof.
  revert seen. induction arr as [|a arr IH]; intros seen; cbn [uniq_from].
  - constructor.
  - case_bool_decide as Ha; [apply IH|].
    constructor; [|apply IH].
    rewrite uniq_from_In. intros [_ H]. set_solver.
Qed.

Lemma uniq_from_fixed (seen : gset string) (arr : list string) :
  List.NoDup arr -> (forall x, In x arr -> x ∉ seen) -> uniq_from seen arr = arr.
Proof.
  revert seen. induction arr as [|a arr IH]; intros seen Hnd Hseen; [reflexivity|].
  cbn [uniq_from]. inversion Hnd as [|? ? Ha Hnd']; subst.
  rewrite bool_decide_eq_false_2 by (apply Hseen; left; reflexivity).
  f_equal. apply IH; [exact Hnd'|].
  intros x Hx. specialize (Hseen x (or_intror Hx)).
  assert (x <> a) by (intros ->; contradiction). set_solver.
Qed.

Lemma uniq_from_app (seen : gset string) (l1 l2 : list string) :
  uniq_from seen (l1 ++ l2) =
  uniq_from seen l1 ++ uniq_from (list_to_set l1 ∪ seen) l2.
Proof.
  revert seen. induction l1 as [|a l1 IH]; intros seen.
  - cbn [app uniq_from list_to_set foldr].
    assert (E : (∅ : gset string) ∪ seen = seen) by set_solver.
    rewrite E. reflexivity.
  - cbn [app uniq_from]. case_bool_decide as Ha.
    + rewrite IH.
      assert (E : list_to_set (a :: l1) ∪ seen = list_to_set l1 ∪ seen :> gset string)
        by set_solver.
      rewrite E. reflexivity.
    + rewrite IH.
      assert (E : list_to_set (a :: l1) ∪ seen =
                  list_to_set l1 ∪ ({[a]} ∪ seen) :> gset string) by set_solver.
      rewrite E. reflexivity.
Qed.

Lemma in_list_to_set (x : string) (l : list string) :
  x ∈ (list_to_set l : gset string) <-> In x l.
Proof. rewrite elem_of_list_to_set, list_elem_of_In. reflexivity. Qed.

Lemma uniq_NoDup (arr : list string) : List.NoDup (uniq arr).
Proof. apply uniq_from_NoDup. Qed.

Lemma uniq_In (arr : list string) (x : string) : In x (uniq arr) <-> In x arr.
Proof. unfold uniq. rewrite uniq_from_In. set_solver. Qed.

Lemma uniq_fixed (arr : list string) : List.NoDup arr -> uniq arr = arr.
Proof. intros H. apply uniq_from_fixed; [exact H | set_solver]. Qed.

Lemma uniq_app (l1 l2 : list string) :
  uniq (l1 ++ l2) = uniq l1 ++ uniq_from (list_to_set l1) l2.
Proof.
  unfold uniq. rewrite uniq_from_app.
  assert (E : list_to_set l1 ∪ ∅ = list_to_set l1 :> gset string) by set_solver.
  rewrite E. reflexivity.
Qed.

(** X18.  [uniq] keeps each value once, at the place of its first
    occurrence: the result has no duplicates and the same members, a
    duplicate-free list is returned as it is, a value added at the end goes
    to the end of the result when it is new and is dropped when it is not,
    and a value stands in the result right after what [uniq] makes of the
    elements before its first occurrence. *)
Theorem uniq_keeps_first_occurrences (arr : list string) :
  List.NoDup (uniq arr) /\
  (forall x, In x (uniq arr) <-> In x arr) /\
  (List.NoDup arr -> uniq arr = arr) /\
  uniq (uniq arr) = uniq arr /\
  (forall x, In x arr -> uniq (arr ++ [x]) = uniq arr) /\
  (forall x, ~ In x arr -> uniq (arr ++ [x]) = uniq arr ++ [x]) /\
  (forall before x after,
      arr = before ++ x :: after -> ~ In x before ->
      exists rest,
        uniq arr = uniq before ++ x :: rest /\
        forall y, In y rest -> In y after /\ y <> x /\ ~ In y before).
Proof.
  split; [apply uniq_NoDup|]. split; [apply uniq_In|]. split; [apply uniq_fixed|].
  split; [apply uniq_fixed, uniq_NoDup|]. split; [|split].
  - intros x Hx. rewrite uniq_app. cbn [uniq_from].
    rewrite bool_decide_eq_true_2 by (apply in_list_to_set; exact Hx).
    apply app_nil_r.
  - intros x Hx. rewrite uniq_app. cbn [uniq_from].
    rewrite bool_decide_eq_false_2; [reflexivity|].
    intros H. apply Hx. apply in_list_to_set. exact H.
  - intros before x after -> Hx. rewrite uniq_app. cbn [uniq_from].
    rewrite bool_decide_eq_false_2.
    2:{ intros H. apply Hx. apply in_list_to_set. exact H. }
    eexists. split; [reflexivity|].
    intros y Hy. apply uniq_from_In in Hy as [Hy Hn]. split; [exact Hy|].
    split.
    + intros ->. apply Hn. set_solver.
    + intros Hb. apply Hn. apply elem_of_union. right.
      apply in_list_to_set. exact Hb.
Qed.

Lemma normalizePhrase_unfold (s : string) : normalizePhrase s = trim s.
Proof. unfold normalizePhrase. rewrite or_else_some. reflexivity. Qed.

(** X19.  [addPhrase] saves nothing when the input element is missing, when no
    host is known, or when the input is blank. *)
Theorem addPhrase_nothing_to_add
    (host kind value : string) (stored : option StoredValue) :
  addPhrase host kind None stored = stored /\
  addPhrase "" kind (Some value) stored = stored /\
  (blank value -> addPhrase host kind (Some value) stored = stored).
Proof.
  split; [reflexivity|]. split; [reflexivity|].
  intros Hb. unfold addPhrase. rewrite normalizePhrase_unfold.
  apply trim_nil in Hb. rewrite Hb. cbn [truthy negb].
  destruct (negb (truthy host)); reflexivity.
Qed.

(** What the popup reads as a site's list is what the content script
    loads. *)
Lemma orEmpty_include (stored : option StoredValue) (host : string) :
  orEmpty (storedInclude (from_option id Popup.defaultSiteRules
                            (loadAllRules stored !! host))) =
  from_option id [] (includePhrases (loadSiteRules stored host)).
Proof.
  unfold loadSiteRules, loadRulesByHost, loadAllRules.
  destruct (match stored with Some (RulesByHost m) => m | _ => ∅ end !! host)
    as [[[| |inc] exc]|]; reflexivity.
Qed.

Lemma orEmpty_exclude (stored : option StoredValue) (host : string) :
  orEmpty (storedExclude (from_option id Popup.defaultSiteRules
                            (loadAllRules stored !! host))) =
  from_option id [] (excludePhrases (loadSiteRules stored host)).
Proof.
  unfold loadSiteRules, loadRulesByHost, loadAllRules.
  destruct (match stored with Some (RulesByHost m) => m | _ => ∅ end !! host)
    as [[inc [| |exc]]|]; reflexivity.
Qed.

Lemma loadSiteRules_saved (m : gmap string StoredRules) (host : string) :
  loadSiteRules (saveAllRules m) host = spreadSiteRules (m !! host).
Proof. reflexivity. Qed.

Lemma loadSiteRules_loaded (stored : option StoredValue) (host : string) :
  loadSiteRules stored host = spreadSiteRules (loadAllRules stored !! host).
Proof. reflexivity. Qed.

Lemma addPhrase_include_loaded (host value : string) (stored : option StoredValue) :
  host <> "" -> ~ blank value ->
  includePhrases (loadSiteRules (addPhrase host "include" (Some value) stored) host) =
    Some (uniq (from_option id [] (includePhrases (loadSiteRules stored host)) ++
                [trim value])).
Proof.
  intros Hh Hb. unfold addPhrase. rewrite normalizePhrase_unfold.
  apply truthy_true in Hh. rewrite Hh.
  rewrite <- trim_nil, <- truthy_true in Hb. rewrite Hb.
  cbn [negb String.eqb Ascii.eqb Bool.eqb andb].
  rewrite loadSiteRules_saved, lookup_insert_eq. cbn.
  rewrite orEmpty_include. reflexivity.
Qed.

Lemma addPhrase_exclude_loaded (host kind value : string) (stored : option StoredValue) :
  host <> "" -> ~ blank value -> kind <> "include" ->
  excludePhrases (loadSiteRules (addPhrase host kind (Some value) stored) host) =
    Some (uniq (from_option id [] (excludePhrases (loadSiteRules stored host)) ++
                [trim value])).
Proof.
  intros Hh Hb Hk. unfold addPhrase. rewrite normalizePhrase_unfold.
  apply truthy_true in Hh. rewrite Hh.
  rewrite <- trim_nil, <- truthy_true in Hb. rewrite Hb.
  apply String.eqb_neq in Hk. rewrite Hk. cbn [negb].
  rewrite loadSiteRules_saved, lookup_insert_eq. cbn.
  rewrite orEmpty_exclude. reflexivity.
Qed.

Lemma removeInclude_loaded (host phrase : string) (stored : option StoredValue) :
  includePhrases (loadSiteRules (removeInclude host phrase stored) host) =
    Some (without phrase
            (from_option id [] (includePhrases (loadSiteRules stored host)))).
Proof.
  unfold removeInclude. rewrite loadSiteRules_saved, lookup_insert_eq. cbn.
  rewrite orEmpty_include. reflexivity.
Qed.

(** X20.  Adding to the include list of a host: the content script then loads,
    for that host, the old list with the trimmed phrase at its end, each
    phrase once; the exclude list of the host and the rules of every other
    host are as before. *)
Theorem addPhrase_include_then_load
    (host value : string) (stored : option StoredValue) :
  host <> "" -> ~ blank value ->
  includePhrases (loadSiteRules (addPhrase host "include" (Some value) stored) host) =
    Some (uniq (from_option id [] (includePhrases (loadSiteRules stored host)) ++
                [trim value])) /\
  excludePhrases (loadSiteRules (addPhrase host "include" (Some value) stored) host) =
    excludePhrases (loadSiteRules stored host) /\
  (forall other, other <> host ->
     loadSiteRules (addPhrase host "include" (Some value) stored) other =
     loadSiteRules stored other).
Proof.
  intros Hh Hb. unfold addPhrase. rewrite normalizePhrase_unfold.
  apply truthy_true in Hh. rewrite Hh.
  rewrite <- trim_nil, <- truthy_true in Hb. rewrite Hb.
  cbn [negb String.eqb Ascii.eqb Bool.eqb andb].
  split; [|split].
  - rewrite loadSiteRules_saved, lookup_insert_eq. cbn.
    rewrite orEmpty_include. reflexivity.
  - rewrite loadSiteRules_saved, lookup_insert_eq, loadSiteRules_loaded. cbn.
    destruct (loadAllRules stored !! host) as [[inc [| |exc]]|]; reflexivity.
  - intros other Hne.
    rewrite loadSiteRules_saved, lookup_insert_ne by congruence. reflexivity.
Qed.

(** X21.  Adding with any kind other than "include" does the same to the
    exclude list and leaves the include list as it was. *)
Theorem addPhrase_exclude_then_load
    (host kind value : string) (stored : option StoredValue) :
  host <> "" -> ~ blank value -> kind <> "include" ->
  excludePhrases (loadSiteRules (addPhrase host kind (Some value) stored) host) =
    Some (uniq (from_option id [] (excludePhrases (loadSiteRules stored host)) ++
                [trim value])) /\
  includePhrases (loadSiteRules (addPhrase host kind (Some value) stored) host) =
    includePhrases (loadSiteRules stored host) /\
  (forall other, other <> host ->
     loadSiteRules (addPhrase host kind (Some value) stored) other =
     loadSiteRules stored other).
Proof.
  intros Hh Hb Hk. unfold addPhrase. rewrite normalizePhrase_unfold.
  apply truthy_true in Hh. rewrite Hh.
  rewrite <- trim_nil, <- truthy_true in Hb. rewrite Hb.
  apply String.eqb_neq in Hk. rewrite Hk. cbn [negb].
  split; [|split].
  - rewrite loadSiteRules_saved, lookup_insert_eq. cbn.
    rewrite orEmpty_exclude. reflexivity.
  - rewrite loadSiteRules_saved, lookup_insert_eq, loadSiteRules_loaded. cbn.
    destruct (loadAllRules stored !! host) as [[[| |inc] exc]|]; reflexivity.
  - intros other Hne.
    rewrite loadSiteRules_saved, lookup_insert_ne by congruence. reflexivity.
Qed.

Lemma without_In (phrase : string) (arr : list string) (q : string) :
  In q (without phrase arr) <-> In q arr /\ q <> phrase.
Proof.
  unfold without. rewrite filter_In, negb_true_iff, String.eqb_neq. reflexivity.
Qed.

Lemma without_absent (phrase : string) (arr : list string) :
  ~ In phrase arr -> without phrase arr = arr.
Proof.
  induction arr as [|a arr IH]; intros H; [reflexivity|].
  cbn [without List.filter] in *.
  assert (Ha : a <> phrase) by (intros ->; apply H; left; reflexivity).
  apply String.eqb_neq in Ha. rewrite Ha. cbn [negb]. f_equal.
  apply IH. intros Hin. apply H. right. exact Hin.
Qed.

Lemma without_app_last (phrase : string) (arr : list string) :
  ~ In phrase arr -> without phrase (arr ++ [phrase]) = arr.
Proof.
  intros H. unfold without. rewrite List.filter_app. cbn [List.filter].
  rewrite String.eqb_refl. cbn [negb]. rewrite app_nil_r.
  apply without_absent, H.
Qed.

(** X22.  Removing a phrase from the include list of a host: the content script
    then loads the old list without any occurrence of the phrase, the other
    phrases in their order; the exclude list and the other hosts are as
    before. *)
Theorem removeInclude_then_load
    (host phrase : string) (stored : option StoredValue) :
  includePhrases (loadSiteRules (removeInclude host phrase stored) host) =
    Some (without phrase
            (from_option id [] (includePhrases (loadSiteRules stored host)))) /\
  (forall q, In q (without phrase
                     (from_option id [] (includePhrases (loadSiteRules stored host)))) <->
             In q (from_option id [] (includePhrases (loadSiteRules stored host))) /\
             q <> phrase) /\
  excludePhrases (loadSiteRules (removeInclude host phrase stored) host) =
    excludePhrases (loadSiteRules stored host) /\
  (forall other, other <> host ->
     loadSiteRules (removeInclude host phrase stored) other =
     loadSiteRules stored other).
Proof.
  unfold removeInclude. split; [|split; [|split]].
  - rewrite loadSiteRules_saved, lookup_insert_eq. cbn.
    rewrite orEmpty_include. reflexivity.
  - intros q. apply without_In.
  - rewrite loadSiteRules_saved, lookup_insert_eq, loadSiteRules_loaded. cbn.
    destruct (loadAllRules stored !! host) as [[inc [| |exc]]|]; reflexivity.
  - intros other Hne.
    rewrite loadSiteRules_saved, lookup_insert_ne by congruence. reflexivity.
Qed.

(** X23.  Adding a phrase that was not in a duplicate-free include list and then
    removing it gives the list back. *)
Theorem addPhrase_then_removeInclude
    (host value : string) (stored : option StoredValue) (phrases : list string) :
  host <> "" -> ~ blank value ->
  includePhrases (loadSiteRules stored host) = Some phrases ->
  List.NoDup phrases -> ~ In (trim value) phrases ->
  includePhrases
    (loadSiteRules
       (removeInclude host (trim value)
          (addPhrase host "include" (Some value) stored)) host) = Some phrases.
Proof.
  intros Hh Hb Hl Hnd Hnin.
  rewrite removeInclude_loaded, (addPhrase_include_loaded host value stored Hh Hb).
  rewrite Hl. cbn [from_option id].
  rewrite (uniq_fixed (phrases ++ [trim value])).
  - rewrite without_app_last by exact Hnin. reflexivity.
  - apply NoDup_ListNoDup. apply NoDup_ListNoDup in Hnd.
    apply NoDup_app. split; [exact Hnd|]. split.
    + intros x Hx Hx'. apply list_elem_of_In in Hx. set_solver.
    + apply NoDup_singleton.
Qed.

(** X24.  [resetSite] forgets the rules of the host: the content script then
    loads the defaults for it; the other hosts keep theirs.  Without a host
    nothing is stored. *)
Theorem resetSite_then_load (host : string) (stored : option StoredValue) :
  (host <> "" ->
   loadSiteRules (resetSite host stored) host = Content.defaultSiteRules) /\
  (forall other, other <> host ->
     loadSiteRules (resetSite host stored) other = loadSiteRules stored other) /\
  resetSite "" stored = stored.
Proof.
  split; [|split]; [| |reflexivity].
  - intros Hh. unfold resetSite. apply truthy_true in Hh. rewrite Hh. cbn [negb].
    destruct (loadAllRules stored !! host) eqn:E.
    + rewrite loadSiteRules_saved, lookup_delete_eq. reflexivity.
    + rewrite loadSiteRules_loaded, E. reflexivity.
  - intros other Hne. unfold resetSite.
    destruct (negb (truthy host)); [reflexivity|].
    destruct (loadAllRules stored !! host); [|reflexivity].
    rewrite loadSiteRules_saved, lookup_delete_ne by congruence. reflexivity.
Qed.

Section WithHost.
Context {host_env : HostEnv}.

(** X25.  From the popup to the page: once a phrase is added to the exclude list
    of the page's host, every card whose normalized title contains the
    normalized phrase ends with the exclusion marker and without the
    highlight marker. *)
Theorem added_exclude_phrase_excludes_matching_cards
    (host value : string) (stored : option StoredValue) (card : Element) :
  host <> "" -> ~ blank value ->
  Substring (normalizeText value) (normalizeText (getTitleTextFromCard host card)) ->
  getAttribute
    (applyRulesToCard host card
       (loadSiteRules (addPhrase host "exclude" (Some value) stored) host))
    HIDDEN_ATTR = Some "1" /\
  getAttribute
    (applyRulesToCard host card
       (loadSiteRules (addPhrase host "exclude" (Some value) stored) host))
    HIGHLIGHT_ATTR = None.
Proof.
  intros Hh Hb Hsub.
  rewrite applyRulesToCard_excluded; [apply markers_excluded|].
  apply hasAnyPhrase_normalized.
  assert (E := addPhrase_exclude_loaded host "exclude" value stored Hh Hb).
  eexists _, (trim value). split; [apply E; discriminate|].
  assert (En : normalizeText (trim value) = normalizeText value).
  { rewrite !normalizeText_unfold, trim_idem. reflexivity. }
  rewrite En. split; [|split; [|exact Hsub]].
  - apply uniq_In, in_or_app. right. left. reflexivity.
  - rewrite normalizeText_nil. exact Hb.
Qed.

End WithHost.

End PopupProps.

(** ** The page: style injection and the scan *)
Module PageProps.
Import JsString JsStringSpec Dom Content Lifecycle LifecycleSpec.
Import JsStringFacts CardFacts ObserverFacts.

Lemma hasElementById_unfold (id : string) (root : Element) :
  hasElementById id root =
  bool_decide (attributes root !! "id" = Some id) ||
  existsb (fun n => match n with
                    | TextNode _ => false
                    | ElementNode c => hasElementById id c
                    end) (childNodes root).
Proof.
  destruct root as [tag attrs disp children]. cbn [hasElementById childNodes attributes].
  f_equal. induction children as [|[d|c] rest IH]; cbn [existsb].
  - reflexivity.
  - exact IH.
  - rewrite IH. reflexivity.
Qed.

Lemma existsb_lookup {A : Type} (f : A -> bool) (l : list A) (i : nat) (x : A) :
  l !! i = Some x -> f x = true -> existsb f l = true.
Proof.
  intros Hl Hx. apply existsb_exists. exists x. split; [|exact Hx].
  apply list_elem_of_In. eapply list_elem_of_lookup_2, Hl.
Qed.

Lemma headIndex_from_lookup (ns : list Node) (k i : nat) :
  headIndex_from ns k = Some i ->
  exists j h, i = k + j /\ ns !! j = Some (ElementNode h).
Proof.
  revert k. induction ns as [|[d|c] rest IH]; intros k; cbn [headIndex_from].
  - discriminate.
  - intros H. apply IH in H as [j [h [-> Hj]]]. exists (S j), h. split; [lia | exact Hj].
  - destruct (String.eqb (tagName c) "head").
    + intros H. injection H as <-. exists 0, c. split; [lia | reflexivity].
    + intros H. apply IH in H as [j [h [-> Hj]]]. exists (S j), h.
      split; [lia | exact Hj].
Qed.

Lemma headIndex_lookup (root : Element) (i : nat) :
  headIndex root = Some i -> exists h, childNodes root !! i = Some (ElementNode h).
Proof.
  intros H. apply headIndex_from_lookup in H as [j [h [-> Hj]]]. exists h. exact Hj.
Qed.

Lemma injectHighlightCssOnce_present (root : Element) :
  hasElementById "phrasefilter-style" root = true ->
  injectHighlightCssOnce root = Some root.
Proof. intros H. unfold injectHighlightCssOnce. cbv zeta. rewrite H. reflexivity. Qed.

Lemma hasElementById_appended (id : string) (parent child : Element) :
  attributes child !! "id" = Some id ->
  hasElementById id (appendChild parent child) = true.
Proof.
  intros H. rewrite hasElementById_unfold. apply orb_true_iff. right.
  cbn [appendChild childNodes]. rewrite existsb_app. apply orb_true_iff. right.
  cbn [existsb]. rewrite hasElementById_unfold.
  rewrite bool_decide_eq_true_2 by exact H. reflexivity.
Qed.

Lemma hasElementById_child (id : string) (f : Element -> Element) (i : nat)
    (root h : Element) :
  childNodes root !! i = Some (ElementNode h) ->
  hasElementById id (f h) = true ->
  hasElementById id (updatePath f [i] root) = true.
Proof.
  intros Hh Hf. cbn [updatePath]. rewrite Hh. rewrite hasElementById_unfold.
  cbn [childNodes]. apply orb_true_iff. right.
  eapply existsb_lookup.
  - apply list_lookup_insert_eq. eapply lookup_lt_Some, Hh.
  - exact Hf.
Qed.

(** X13.  The style sheet is injected at most once: after an injection the style
    element is found by its id, and injecting again changes nothing; a
    document that already has it is left as it is. *)
Theorem injectHighlightCssOnce_injects_once (root root' : Element) :
  injectHighlightCssOnce root = Some root' ->
  hasElementById "phrasefilter-style" root' = true /\
  injectHighlightCssOnce root' = Some root' /\
  (hasElementById "phrasefilter-style" root = true -> root' = root).
Proof.
  intros E.
  assert (Hfound : hasElementById "phrasefilter-style" root' = true).
  { unfold injectHighlightCssOnce in E. cbv zeta in E.
    destruct (hasElementById "phrasefilter-style" root) eqn:Hid.
    - injection E as <-. exact Hid.
    - destruct (headIndex root) as [i|] eqn:Hi; [|discriminate].
      injection E as <-.
      destruct (headIndex_lookup root i Hi) as [h Hh].
      eapply hasElementById_child; [exact Hh|].
      apply hasElementById_appended. reflexivity. }
  split; [exact Hfound|]. split; [apply injectHighlightCssOnce_present, Hfound|].
  intros Hid. rewrite (injectHighlightCssOnce_present root Hid) in E.
  injection E as <-. reflexivity.
Qed.

Lemma lookupPath_updatePath (f : Element -> Element) (p : Path) (root : Element) :
  lookupPath (updatePath f p root) p = option_map f (lookupPath root p).
Proof.
  revert root. induction p as [|i p IH]; intros root; [reflexivity|].
  cbn [updatePath lookupPath].
  destruct (childNodes root !! i) as [[d|c]|] eqn:E.
  - cbn [lookupPath]. rewrite E. reflexivity.
  - cbn [lookupPath childNodes].
    rewrite list_lookup_insert_eq by (eapply lookup_lt_Some, E). apply IH.
  - cbn [lookupPath]. rewrite E. reflexivity.
Qed.

Lemma lookupPath_updatePath_incomparable
    (f : Element -> Element) (p q : Path) (root : Element) :
  incomparable p q ->
  lookupPath (updatePath f p root) q = lookupPath root q.
Proof.
  revert q root. induction p as [|i p IH]; intros q root [Hpq Hqp].
  - exfalso. apply Hpq. apply prefix_nil.
  - destruct q as [|j q]; [exfalso; apply Hqp, prefix_nil|].
    cbn [updatePath].
    destruct (childNodes root !! i) as [[d|c]|] eqn:E; try reflexivity.
    cbn [lookupPath childNodes].
    destruct (decide (i = j)) as [<- | Hne].
    + rewrite list_lookup_insert_eq by (eapply lookup_lt_Some, E). rewrite E.
      apply IH. split; intros H; [apply Hpq | apply Hqp]; apply prefix_cons, H.
    + rewrite list_lookup_insert_ne by exact Hne. reflexivity.
Qed.

Lemma forEachPath_cons (f : Element -> Element) (p : Path) (ps : list Path)
    (root : Element) :
  forEachPath f (p :: ps) root = forEachPath f ps (updatePath f p root).
Proof. reflexivity. Qed.

Lemma forEachPath_elsewhere (f : Element -> Element) (ps : list Path) (q : Path)
    (root : Element) :
  (forall p, In p ps -> incomparable p q) ->
  lookupPath (forEachPath f ps root) q = lookupPath root q.
Proof.
  revert root. induction ps as [|p ps IH]; intros root H; [reflexivity|].
  rewrite forEachPath_cons, IH by (intros p' Hp'; apply H; right; exact Hp').
  apply lookupPath_updatePath_incomparable, H. left. reflexivity.
Qed.

Lemma incomparable_sym (p q : Path) : incomparable p q -> incomparable q p.
Proof. intros [H1 H2]. split; assumption. Qed.

Lemma forEachPath_at (f : Element -> Element) (ps : list Path) (root : Element) :
  ForallOrdPairs incomparable ps ->
  forall p, In p ps ->
    lookupPath (forEachPath f ps root) p = option_map f (lookupPath root p).
Proof.
  intros Hps. revert root.
  induction Hps as [|a ps Ha Hps IH]; intros root p Hin; [destruct Hin|].
  rewrite forEachPath_cons. destruct Hin as [<- | Hin].
  - rewrite forEachPath_elsewhere.
    + apply lookupPath_updatePath.
    + intros p Hp. apply incomparable_sym.
      rewrite List.Forall_forall in Ha. apply Ha, Hp.
  - rewrite IH by exact Hin. f_equal.
    apply lookupPath_updatePath_incomparable.
    rewrite List.Forall_forall in Ha. apply Ha, Hin.
Qed.

Section WithHost.
Context {host_env : HostEnv}.


End WithHost.

(** X26.  The first revision's [setHidden] un-hides only what it hid: a
    card without its marker is left exactly as it is.  Hiding writes the
    [style] attribute; hiding then showing clears the marker and the inline
    display style, whatever that style was before, rewrites the [style]
    attribute twice, and keeps every attribute other than these two. *)
Theorem legacy_setHidden_shows_only_what_it_hid {cssom : CssomEnv} (card : Element) :
  (getAttribute card Legacy.HIDDEN_ATTR <> Some "1" ->
   Legacy.setHidden card false = card) /\
  getAttribute (Legacy.setHidden (Legacy.setHidden card true) false)
    Legacy.HIDDEN_ATTR = None /\
  styleDisplay (Legacy.setHidden (Legacy.setHidden card true) false) = "" /\
  getAttribute (Legacy.setHidden card true) "style" =
    Some (serializeInlineStyle (getAttribute card "style") "none") /\
  getAttribute (Legacy.setHidden (Legacy.setHidden card true) false) "style" =
    Some (serializeInlineStyle
            (Some (serializeInlineStyle (getAttribute card "style") "none")) "") /\
  (forall name, name <> Legacy.HIDDEN_ATTR -> name <> "style" ->
     getAttribute (Legacy.setHidden (Legacy.setHidden card true) false) name =
     getAttribute card name).
Proof.
  assert (Hmarked : getAttribute (Legacy.setHidden card true) Legacy.HIDDEN_ATTR =
                    Some "1") by apply getAttribute_setAttribute.
  assert (Hstyle : getAttribute (Legacy.setHidden card true) "style" =
                   Some (serializeInlineStyle (getAttribute card "style") "none")).
  { unfold Legacy.setHidden. rewrite getAttribute_setAttribute_ne by discriminate.
    unfold getAttribute, setStyleDisplay. cbn [attributes].
    apply lookup_insert_eq. }
  split; [|split; [|split; [|split; [exact Hstyle|split]]]].
  - intros H. unfold Legacy.setHidden. rewrite bool_decide_eq_false_2 by exact H.
    reflexivity.
  - unfold Legacy.setHidden at 1. rewrite bool_decide_eq_true_2 by exact Hmarked.
    apply getAttribute_removeAttribute.
  - unfold Legacy.setHidden at 1. rewrite bool_decide_eq_true_2 by exact Hmarked.
    reflexivity.
  - unfold Legacy.setHidden at 1. rewrite bool_decide_eq_true_2 by exact Hmarked.
    rewrite getAttribute_removeAttribute_ne by discriminate.
    unfold getAttribute at 1. unfold setStyleDisplay at 1. cbn [attributes].
    rewrite lookup_insert_eq. fold (getAttribute (Legacy.setHidden card true) "style").
    rewrite Hstyle. reflexivity.
  - intros name H1 H2. unfold Legacy.setHidden at 1.
    rewrite bool_decide_eq_true_2 by exact Hmarked.
    rewrite getAttribute_removeAttribute_ne by congruence.
    unfold getAttribute at 1. unfold setStyleDisplay at 1. cbn [attributes].
    rewrite lookup_insert_ne by congruence.
    fold (getAttribute (Legacy.setHidden card true) name).
    unfold Legacy.setHidden. rewrite getAttribute_setAttribute_ne by congruence.
    unfold getAttribute, setStyleDisplay. cbn [attributes].
    apply lookup_insert_ne. congruence.
Qed.

End PageProps.

(** ** Bid buttons on the page *)
Module BidProps.
Import JsString Dom Content LifecycleSpec JsStringFacts BidFacts PageProps.

(** C10.  The true total of a bid [b] is [(b * 1.175 + f) * 1.095], in
    binary64 arithmetic, with [f] = 0.25 when [b <= 5] and 1.00 otherwise.
    [enhanceBidButton] appends it, printed by [toFixed(2)], to the trimmed
    text of a bid button whose [data-bid] parses to a number, and marks the
    button so that a second call changes nothing.  On a BidFTA host
    [enhanceBidButtons] does this to each bid button of the page (no bid
    button lying inside another): every button the selector engine returned
    holds [enhanceBidButton] of what it held, which a further call leaves as
    it is, and every place that is neither a bid button, nor inside one, nor
    around one is untouched; on any other host the page is left alone.  A
    scan ends with this pass over the cards it has marked. *)
Theorem calculateTrueBidTotal_premium_freight_tax :
  (forall b : float,
      calculateTrueBidTotal b =
      ((b * 1.175 + (if b <=? 5 then 0.25 else 1.00)) * 1.095)%float) /\
  (forall (host_env : HostEnv) (button : Element),
      hasAttribute button ENHANCED_ATTR = false ->
      PrimFloat.is_nan
        (parseFloat (from_option id "null" (getAttribute button "data-bid"))) = false ->
      textContent (enhanceBidButton button) =
        trim (textContent button) +:+ " ($" +:+
        toFixed
          (calculateTrueBidTotal
             (parseFloat (from_option id "null" (getAttribute button "data-bid")))) 2 +:+
        " total)" /\
      hasAttribute (enhanceBidButton button) ENHANCED_ATTR = true) /\
  (forall (host_env : HostEnv) (button : Element),
      enhanceBidButton (enhanceBidButton button) = enhanceBidButton button) /\
  (forall (host_env : HostEnv) (currentHost : string) (root : Element),
      hostMatchesDomain currentHost "bidfta.com" = false ->
      enhanceBidButtons currentHost root = root) /\
  (forall (host_env : HostEnv) (currentHost : string) (root : Element),
      hostMatchesDomain currentHost "bidfta.com" = true ->
      ForallOrdPairs incomparable (querySelectorAll root "button[data-bid]") ->
      (forall p,
          In p (querySelectorAll root "button[data-bid]") ->
          lookupPath (enhanceBidButtons currentHost root) p =
          option_map enhanceBidButton (lookupPath root p)) /\
      (forall p button,
          In p (querySelectorAll root "button[data-bid]") ->
          lookupPath (enhanceBidButtons currentHost root) p = Some button ->
          enhanceBidButton button = button) /\
      (forall q,
          (forall p, In p (querySelectorAll root "button[data-bid]") ->
                     incomparable p q) ->
          lookupPath (enhanceBidButtons currentHost root) q = lookupPath root q)) /\
  (forall (host_env : HostEnv) (rules : SiteRules) (st st' : State),
      applyRulesToPage rules st = Some st' ->
      exists doc,
        injectHighlightCssOnce (document st) = Some doc /\
        document st' =
        enhanceBidButtons (currentHost st)
          (forEachPath (fun card => applyRulesToCard (currentHost st) card rules)
             (querySelectorAll doc
                (from_option id "undefined" (getItemSelectorForHost (currentHost st))))
             doc)).
Proof.
  split; [|split; [|split; [|split; [|split]]]].
  - intros b. reflexivity.
  - intros host_env button H1 H2. rewrite (enhanceBidButton_fresh button H1 H2). split.
    + rewrite textContent_setAttribute. apply textContent_setTextContent.
    + apply hasAttribute_setAttribute.
  - intros host_env button. apply enhanceBidButton_idempotent.
  - intros host_env currentHost root H. unfold enhanceBidButtons. rewrite H. reflexivity.
  - intros host_env currentHost root Hhost Hbuttons.
    unfold enhanceBidButtons. rewrite Hhost. cbn [negb].
    assert (Hat : forall p,
               In p (querySelectorAll root "button[data-bid]") ->
               lookupPath
                 (forEachPath enhanceBidButton
                    (querySelectorAll root "button[data-bid]") root) p =
               option_map enhanceBidButton (lookupPath root p))
      by (intros p Hp; apply forEachPath_at; assumption).
    split; [exact Hat|]. split.
    + intros p button Hp Hb. rewrite (Hat p Hp) in Hb.
      destruct (lookupPath root p) as [b0|]; [|discriminate].
      cbn [option_map] in Hb. injection Hb as <-. apply enhanceBidButton_idempotent.
    + intros q Hq. apply forEachPath_elsewhere, Hq.
  - intros host_env rules st st' H. unfold applyRulesToPage in H.
    destruct (injectHighlightCssOnce (document st)) as [doc|]; [|discriminate].
    injection H as <-. exists doc. split; reflexivity.
Qed.

End BidProps.

(** ** The further properties on the sample hosts *)
Module ExtraScenarios.
Import JsString JsStringSpec Dom Content Lifecycle LifecycleSpec Popup.
Import JsStringFacts NormalizeFacts SampleHost.

Lemma not_blank (c : ascii) (s : string) :
  isWhiteSpace c = false -> ~ blank (String c s).
Proof.
  intros Hc Hb. rewrite (Hb c) in Hc by (left; reflexivity). discriminate.
Qed.



Lemma calculateTrueBidTotal_premium_freight_tax_witness :
  lookupPath (enhanceBidButtons "www.bidfta.com" SampleHost.page) [1; 2] =
    option_map enhanceBidButton (lookupPath SampleHost.page [1; 2]) /\
  textContent (enhanceBidButton (SampleHost.bidButton "10" " Bid $10 ")) =
    trim (textContent (SampleHost.bidButton "10" " Bid $10 ")) +:+ " ($" +:+
    toFixed (calculateTrueBidTotal (parseFloat "10")) 2 +:+ " total)".
Proof.
  destruct BidProps.calculateTrueBidTotal_premium_freight_tax
    as [_ [Hone [_ [_ [Hall _]]]]].
  split.
  - destruct (Hall sampleHost "www.bidfta.com" SampleHost.page) as [Hat _].
    + reflexivity.
    + assert (E : querySelectorAll SampleHost.page "button[data-bid]" = [[1; 2]])
        by (vm_compute; reflexivity).
      rewrite E. constructor; constructor.
    + apply Hat.
      assert (E : querySelectorAll SampleHost.page "button[data-bid]" = [[1; 2]])
        by (vm_compute; reflexivity).
      rewrite E. left. reflexivity.
  - destruct (Hone sampleHost (SampleHost.bidButton "10" " Bid $10 ")) as [E _].
    + reflexivity.
    + reflexivity.
    + exact E.
Defined.

Example scenario_bid_buttons_on_the_page :
  option_map textContent
    (lookupPath (enhanceBidButtons "www.bidfta.com" SampleHost.page) [1; 2]) =
  Some "Bid $10 ($13.96 total)".
Proof. vm_compute. reflexivity. Qed.

Lemma normalizeText_trimmed_and_lowered_witness : normalizeText "   " = "".
Proof.
  apply (proj1 (NormalizeProps.normalizeText_trimmed_and_lowered "   ")).
  intros c [<- | [<- | [<- | []]]]; reflexivity.
Defined.

Lemma normalizePhrases_keeps_nonblank_normalized_witness :
  In "dewalt" (normalizePhrases (Some [" DeWalt "; "  "])).
Proof.
  apply (proj1 (proj2 (NormalizeProps.normalizePhrases_keeps_nonblank_normalized
                         [" DeWalt "; "  "]))).
  exists " DeWalt ". split; [left; reflexivity|]. split; [|reflexivity].
  intros Hb. specialize (Hb "D"%char). cbn in Hb.
  assert (E : isWhiteSpace "D" = true) by (apply Hb; right; left; reflexivity).
  discriminate E.
Defined.

Lemma applyRulesToCard_touches_only_the_markers_witness :
  getAttribute
    (applyRulesToCard "www.bidfta.com" (SampleHost.card None "Dewalt Drill")
       SampleHost.rules) "role" =
  getAttribute (SampleHost.card None "Dewalt Drill") "role".
Proof.
  destruct (CardProps.applyRulesToCard_touches_only_the_markers "www.bidfta.com"
              (SampleHost.card None "Dewalt Drill") SampleHost.rules)
    as [_ [_ [_ [_ H]]]].
  apply (H "role"); discriminate.
Defined.

Lemma applyRulesToCard_idempotent_witness :
  applyRulesToCard "www.bidfta.com"
    (applyRulesToCard "www.bidfta.com"
       (SampleHost.card (Some "DeWalt Drill - Broken case") "DeWalt Drill")
       SampleHost.rules)
    SampleHost.rules =
  applyRulesToCard "www.bidfta.com"
    (SampleHost.card (Some "DeWalt Drill - Broken case") "DeWalt Drill")
    SampleHost.rules.
Proof.
  apply (CardProps.applyRulesToCard_idempotent "www.bidfta.com"
           (SampleHost.card (Some "DeWalt Drill - Broken case") "DeWalt Drill")
           SampleHost.rules).
  reflexivity.
Defined.

Lemma unsupported_host_leaves_cards_neutral_witness :
  getTitleTextFromCard "example.com" (SampleHost.card None "Broken Drill") = "".
Proof.
  apply (CardProps.unsupported_host_leaves_cards_neutral "example.com"
           (SampleHost.card None "Broken Drill") SampleHost.rules);
    reflexivity.
Defined.

Lemma enhanceBidButton_touches_text_and_marker_only_witness :
  enhanceBidButton (SampleHost.bidButton "soon" "Bid") = SampleHost.bidButton "soon" "Bid".
Proof.
  apply (CardProps.enhanceBidButton_touches_text_and_marker_only
           (SampleHost.bidButton "soon" "Bid")).
  reflexivity.
Defined.

Lemma injectHighlightCssOnce_injects_once_witness :
  injectHighlightCssOnce SampleGovDeals.styledPage = Some SampleGovDeals.styledPage.
Proof.
  apply (PageProps.injectHighlightCssOnce_injects_once SampleGovDeals.page
           SampleGovDeals.styledPage).
  vm_compute. reflexivity.
Defined.

Lemma uniq_keeps_first_occurrences_witness : uniq ["a"; "b"] = ["a"; "b"].
Proof.
  apply (proj1 (proj2 (proj2 (PopupProps.uniq_keeps_first_occurrences ["a"; "b"])))).
  constructor; [intros [E | []]; discriminate|].
  constructor; [intros []|]. constructor.
Defined.

Lemma addPhrase_nothing_to_add_witness :
  addPhrase "www.govdeals.com" "include" (Some "  ") SampleGovDeals.stored =
  SampleGovDeals.stored.
Proof.
  apply (PopupProps.addPhrase_nothing_to_add "www.govdeals.com" "include" "  "
           SampleGovDeals.stored).
  intros c [<- | [<- | []]]; reflexivity.
Defined.

Lemma addPhrase_include_then_load_witness :
  includePhrases
    (loadSiteRules
       (addPhrase "www.govdeals.com" "include" (Some " Makita ") SampleGovDeals.stored)
       "www.govdeals.com") = Some ["dewalt"; "Makita"].
Proof.
  destruct (PopupProps.addPhrase_include_then_load "www.govdeals.com" " Makita "
              SampleGovDeals.stored) as [H _].
  - discriminate.
  - intros Hb. specialize (Hb "M"%char). cbn in Hb.
    assert (E : isWhiteSpace "M" = true) by (apply Hb; right; left; reflexivity).
    discriminate E.
  - rewrite H. reflexivity.
Defined.

Lemma addPhrase_exclude_then_load_witness :
  excludePhrases
    (loadSiteRules
       (addPhrase "www.govdeals.com" "exclude" (Some "broken") SampleGovDeals.stored)
       "www.govdeals.com") = Some ["broken"].
Proof.
  destruct (PopupProps.addPhrase_exclude_then_load "www.govdeals.com" "exclude"
              "broken" SampleGovDeals.stored) as [H _].
  - discriminate.
  - apply not_blank. reflexivity.
  - discriminate.
  - rewrite H. reflexivity.
Defined.

Lemma removeInclude_then_load_witness :
  In "dewalt"
    (without "makita"
       (from_option id []
          (includePhrases (loadSiteRules SampleGovDeals.stored "www.govdeals.com")))).
Proof.
  destruct (PopupProps.removeInclude_then_load "www.govdeals.com" "makita"
              SampleGovDeals.stored) as [_ [H _]].
  apply (proj2 (H "dewalt")). split; [left; reflexivity | discriminate].
Defined.

Lemma addPhrase_then_removeInclude_witness :
  includePhrases
    (loadSiteRules
       (removeInclude "www.govdeals.com" (trim " Makita ")
          (addPhrase "www.govdeals.com" "include" (Some " Makita ")
             SampleGovDeals.stored))
       "www.govdeals.com") = Some ["dewalt"].
Proof.
  apply (PopupProps.addPhrase_then_removeInclude "www.govdeals.com" " Makita "
           SampleGovDeals.stored ["dewalt"]).
  - discriminate.
  - intros Hb. specialize (Hb "M"%char). cbn in Hb.
    assert (E : isWhiteSpace "M" = true) by (apply Hb; right; left; reflexivity).
    discriminate E.
  - reflexivity.
  - constructor; [intros []|constructor].
  - intros [E | []]. discriminate.
Defined.

Lemma resetSite_then_load_witness :
  loadSiteRules (resetSite "www.govdeals.com" SampleGovDeals.stored) "www.govdeals.com" =
  Content.defaultSiteRules.
Proof.
  apply (PopupProps.resetSite_then_load "www.govdeals.com" SampleGovDeals.stored).
  discriminate.
Defined.

Lemma legacy_setHidden_shows_only_what_it_hid_witness :
  Legacy.setHidden (cssom := SampleCssom.displayOnly)
    (SampleHost.card None "Drill") false = SampleHost.card None "Drill".
Proof.
  apply (proj1 (PageProps.legacy_setHidden_shows_only_what_it_hid
                  (cssom := SampleCssom.displayOnly) (SampleHost.card None "Drill"))).
  intros H. vm_compute in H. discriminate H.
Defined.

Example legacy_hide_then_show :
  getAttribute
    (Legacy.setHidden (cssom := SampleCssom.displayOnly)
       (SampleHost.card None "Drill") true) "style" = Some "display: none;" /\
  getAttribute
    (Legacy.setHidden (cssom := SampleCssom.displayOnly)
       (Legacy.setHidden (cssom := SampleCssom.displayOnly)
          (SampleHost.card None "Drill") true) false) "style" = Some "".
Proof. split; vm_compute; reflexivity. Qed.

End ExtraScenarios.

(** ** The further properties on the GovDeals sample *)
Module GovDealsScenarios.
Import JsString JsStringSpec Dom Content Lifecycle LifecycleSpec Popup.
Import JsStringFacts NormalizeFacts ExtraScenarios SampleGovDeals.


Lemma storage_change_elsewhere_is_ignored_witness :
  onStorageChanged SampleGovDeals.otherChange "sync" SampleGovDeals.state =
  Some SampleGovDeals.state.
Proof.
  apply (LifecycleProps.storage_change_elsewhere_is_ignored
           SampleGovDeals.otherChange "sync" SampleGovDeals.state).
  right. reflexivity.
Defined.

Lemma rules_change_reloads_and_rescans_witness :
  exists st',
    onStorageChanged SampleGovDeals.rulesChange "sync" SampleGovDeals.state = Some st' /\
    currentRules st' =
    {| includePhrases := Some ["dewalt"]; excludePhrases := None |}.
Proof.
  destruct (LifecycleProps.rules_change_reloads_and_rescans
              SampleGovDeals.rulesChange
              {| oldValue := None; newValue := SampleGovDeals.stored |}
              SampleGovDeals.state)
    as [st' [H1 [H2 _]]].
  - reflexivity.
  - exists 0. reflexivity.
  - exists st'. split; [exact H1|]. rewrite H2. reflexivity.
Defined.

Lemma init_without_host_does_nothing_witness :
  exists rt,
    init None SampleGovDeals.stored (initialState SampleGovDeals.page) = Some rt /\
    storageListener rt = false.
Proof.
  destruct (LifecycleProps.init_without_host_does_nothing None SampleGovDeals.stored
              SampleGovDeals.page) as [rt [H1 [H2 _]]].
  - reflexivity.
  - exists rt. split; assumption.
Defined.


Lemma added_exclude_phrase_excludes_matching_cards_witness :
  getAttribute
    (applyRulesToCard "www.govdeals.com" (SampleGovDeals.card "Broken Lathe")
       (loadSiteRules
          (addPhrase "www.govdeals.com" "exclude" (Some " Broken ")
             SampleGovDeals.stored) "www.govdeals.com"))
    HIDDEN_ATTR = Some "1".
Proof.
  destruct (PopupProps.added_exclude_phrase_excludes_matching_cards
              (host_env := SampleGovDeals.govDealsHost)
              "www.govdeals.com" " Broken " SampleGovDeals.stored
              (SampleGovDeals.card "Broken Lathe")) as [H _].
  - discriminate.
  - intros Hb. specialize (Hb "B"%char). cbn in Hb.
    assert (E : isWhiteSpace "B" = true) by (apply Hb; right; left; reflexivity).
    discriminate E.
  - exists "", " lathe". reflexivity.
  - exact H.
Defined.

End GovDealsScenarios.
